(** * Sensor acquisition subsystem: LSM6DSL register driver and acquisition task

    A shallow embedding of [lsm6dsl.c] (the register-level driver of the
    6-axis inertial sensor) and of [sensor_acq.c] (the periodic acquisition
    task, its statistics and its public operations), followed by the
    properties the specification states about them.

    - C [float] is IEEE-754 binary32, modelled with the Standard Library's
      [SpecFloat] operations at precision 24 and maximal exponent 128
      (round to nearest, ties to even); every operation of a [float]
      expression rounds to binary32, as on the single-precision FPU of the
      board.
    - C unsigned integers are [Z] with the wrap-around written out.
    - File-scope and function-scope [static] variables are fields of the
      [World]; out-parameters are passed in and returned.
    - What the code asks of FreeRTOS, of the STM32 HAL and of the C library
      ([xSemaphoreTake], [HAL_I2C_Mem_Read], [xQueueSend], [rand], ...) is
      answered by an environment [Env]: the n-th call of a kind gets the n-th
      answer.  Every call leaves an [Event] in the world's trace. *)

From Stdlib Require Import ZArith List Bool Lia String QArith Qabs.
From Stdlib Require Import Floats.SpecFloat.
Import ListNotations.
Open Scope Z_scope.

(** ** binary32 arithmetic *)

Module F32.

Definition float32 : Type := spec_float.

Definition prec : Z := 24.
Definition emax : Z := 128.

Definition add : float32 -> float32 -> float32 := SFadd prec emax.
Definition mul : float32 -> float32 -> float32 := SFmul prec emax.
Definition div : float32 -> float32 -> float32 := SFdiv prec emax.
Definition eqb : float32 -> float32 -> bool := SFeqb.

(** [(float)z] for an integer [z]. *)
Definition of_Z (z : Z) : float32 := binary_normalize prec emax z 0 false.

(** The literal [n/d] written in decimal in the source ([0.061f] is
    [lit 61 1000]): the binary32 number nearest to the quotient.  Both
    [n] and [d] are below [2^24], hence exact, and the division rounds
    once. *)
Definition lit (n d : Z) : float32 := div (of_Z n) (of_Z d).

Definition zero : float32 := S754_zero false.

(** The rational a finite binary32 number denotes (0 for the others). *)
Definition to_Q (x : float32) : Q :=
  match x with
  | S754_finite s m e =>
      let v := match e with
               | Z0 => Zpos m # 1
               | Zpos _ => (Zpos m * 2 ^ e) # 1
               | Zneg p => Zpos m # (2 ^ p)
               end in
      if s then Qopp v else v
  | _ => 0%Q
  end.

Definition is_finite (x : float32) : bool :=
  match x with
  | S754_finite _ _ _ | S754_zero _ => true
  | _ => false
  end.

End F32.

Abbreviation float32 := F32.float32.

(** ** Fixed-width integers *)

Definition u8 (z : Z) : Z := z mod 256.
Definition u32 (z : Z) : Z := z mod 4294967296.

(** [(int16_t)z]: the low 16 bits of [z], read in two's complement. *)
Definition int16_cast (z : Z) : Z :=
  let u := z mod 65536 in
  if u <? 32768 then u else u - 65536.

(** ** Types of [main.h], [lsm6dsl.h] and [sensor_acq.h] *)

Inductive HAL_StatusTypeDef : Type :=
  | HAL_OK
  | HAL_ERROR
  | HAL_BUSY
  | HAL_TIMEOUT.

Definition is_ok (s : HAL_StatusTypeDef) : bool :=
  match s with HAL_OK => true | _ => false end.

Record LSM6DSL_Config_t : Type := {
  accel_odr : Z;
  accel_fs : Z;
  gyro_odr : Z;
  gyro_fs : Z;
  fifo_enable : Z
}.

Record LSM6DSL_Data_t : Type := {
  imu_accel_x : float32; imu_accel_y : float32; imu_accel_z : float32;
  imu_gyro_x : float32; imu_gyro_y : float32; imu_gyro_z : float32;
  imu_temperature : float32;
  imu_timestamp : Z;
  data_ready : Z
}.

Record SensorData_t : Type := {
  timestamp : Z;
  accel_x : float32; accel_y : float32; accel_z : float32;
  gyro_x : float32; gyro_y : float32; gyro_z : float32;
  pressure : float32;
  temperature : float32;
  humidity : float32;
  data_valid : Z
}.

Inductive SensorAcqState_t : Type :=
  | SENSOR_ACQ_INIT
  | SENSOR_ACQ_RUNNING
  | SENSOR_ACQ_ERROR
  | SENSOR_ACQ_STOPPED.

Record SensorAcqStats_t : Type := {
  total_samples : Z;
  error_count : Z;
  last_sample_time : Z;
  sample_rate : float32;
  state : SensorAcqState_t
}.

(** [= {0}] and [memset(.., 0, ..)]: all-zero bytes are [+0.0f] in a
    [float] and the first enumerator in an [enum]. *)
Definition LSM6DSL_Config_zero : LSM6DSL_Config_t :=
  {| accel_odr := 0; accel_fs := 0; gyro_odr := 0; gyro_fs := 0;
     fifo_enable := 0 |}.

Definition LSM6DSL_Data_zero : LSM6DSL_Data_t :=
  {| imu_accel_x := F32.zero; imu_accel_y := F32.zero; imu_accel_z := F32.zero;
     imu_gyro_x := F32.zero; imu_gyro_y := F32.zero; imu_gyro_z := F32.zero;
     imu_temperature := F32.zero; imu_timestamp := 0; data_ready := 0 |}.

Definition SensorData_zero : SensorData_t :=
  {| timestamp := 0;
     accel_x := F32.zero; accel_y := F32.zero; accel_z := F32.zero;
     gyro_x := F32.zero; gyro_y := F32.zero; gyro_z := F32.zero;
     pressure := F32.zero; temperature := F32.zero; humidity := F32.zero;
     data_valid := 0 |}.

Definition SensorAcqStats_zero : SensorAcqStats_t :=
  {| total_samples := 0; error_count := 0; last_sample_time := 0;
     sample_rate := F32.zero; state := SENSOR_ACQ_INIT |}.

(** ** Constants of [lsm6dsl.h], [main.h], [sensor_acq.c], [FreeRTOSConfig.h] *)

Definition LSM6DSL_WHO_AM_I : Z := 0x0F.
Definition LSM6DSL_CTRL1_XL : Z := 0x10.
Definition LSM6DSL_CTRL2_G : Z := 0x11.
Definition LSM6DSL_CTRL3_C : Z := 0x12.
Definition LSM6DSL_CTRL4_C : Z := 0x13.
Definition LSM6DSL_STATUS_REG : Z := 0x1E.
Definition LSM6DSL_OUT_TEMP_L : Z := 0x20.

Definition LSM6DSL_WHO_AM_I_VALUE : Z := 0x6A.

Definition LSM6DSL_XL_ODR_POWER_DOWN : Z := 0x00.
Definition LSM6DSL_XL_ODR_104_HZ : Z := 0x40.

Definition LSM6DSL_XL_FS_2G : Z := 0x00.
Definition LSM6DSL_XL_FS_16G : Z := 0x04.
Definition LSM6DSL_XL_FS_4G : Z := 0x08.
Definition LSM6DSL_XL_FS_8G : Z := 0x0C.

Definition LSM6DSL_GY_ODR_POWER_DOWN : Z := 0x00.
Definition LSM6DSL_GY_ODR_104_HZ : Z := 0x40.

Definition LSM6DSL_GY_FS_125_DPS : Z := 0x02.
Definition LSM6DSL_GY_FS_250_DPS : Z := 0x00.
Definition LSM6DSL_GY_FS_500_DPS : Z := 0x04.
Definition LSM6DSL_GY_FS_1000_DPS : Z := 0x08.
Definition LSM6DSL_GY_FS_2000_DPS : Z := 0x0C.

Definition LSM6DSL_STATUS_TDA : Z := 0x04.
Definition LSM6DSL_STATUS_GDA : Z := 0x02.
Definition LSM6DSL_STATUS_XLDA : Z := 0x01.

Definition LSM6DSL_TIMEOUT_MS : Z := 100.

Definition configTICK_RATE_HZ : Z := 1000.
Definition pdMS_TO_TICKS (ms : Z) : Z := u32 (ms * configTICK_RATE_HZ / 1000).

Definition SENSOR_SAMPLE_RATE_HZ : Z := 100.
Definition SENSOR_SAMPLE_PERIOD_MS : Z := 1000 / SENSOR_SAMPLE_RATE_HZ.
Definition SENSOR_MAX_RETRY_COUNT : Z := 3.

(** [xQueueCreate(10, sizeof(SensorData_t))] in [main]. *)
Definition xSensorDataQueue_length : nat := 10.

(** ** The environment and the world *)

(** What one register transaction meets: whether [xSemaphoreTake] got the
    bus mutex within its 100 ms, what the HAL call returned, the bytes a
    read delivered, and the ticks that went by. *)
Record BusReply : Type := {
  lock_taken : bool;
  hal_status : HAL_StatusTypeDef;
  rx_bytes : list Z;
  elapsed : Z
}.

Record Env : Type := {
  (** the n-th call of [LSM6DSL_ReadReg] or [LSM6DSL_WriteReg] *)
  i2c_reply : nat -> BusReply;
  (** the n-th [rand()] *)
  rand_value : nat -> Z;
  (** how many samples the consumer has taken from the queue by the time
      the n-th [xQueueSend] succeeds or gives up *)
  consumer_takes : nat -> nat
}.

Inductive Event : Type :=
  | EvReadReg (reg : Z) (len : nat) (st : HAL_StatusTypeDef)
  | EvWriteReg (reg : Z) (bytes : list Z) (st : HAL_StatusTypeDef)
  | EvDelay (ticks : Z)
  | EvQueueSend (sent : bool)
  | EvLog (msg : string)
  | EvEnterCritical
  | EvExitCritical.

(** The two [static float] of [lsm6dsl.c]. *)
Record Driver : Type := {
  accel_sensitivity : float32;
  gyro_sensitivity : float32
}.

(** The [static] variables of [sensor_acq.c]; the last two are the
    function-scope statics of [SensorAcq_UpdateStats]. *)
Record Acq : Type := {
  xSensorStats : SensorAcqStats_t;
  ucSensorEnabled : Z;
  xIMUConfig : LSM6DSL_Config_t;
  last_stats_update : Z;
  sample_count_in_period : Z
}.

(** The kernel and the board as the code sees them. *)
Record Rtos : Type := {
  tick : Z;
  critical_nesting : nat;
  i2c_calls : nat;
  rand_calls : nat;
  send_calls : nat;
  xSensorDataQueue : list SensorData_t;
  trace : list Event
}.

Record World : Type := {
  drv : Driver;
  acq : Acq;
  rtos : Rtos
}.

(** The state at reset: the initialisers of the static variables. *)
Definition Driver_reset : Driver :=
  {| accel_sensitivity := F32.lit 61 1000;
     gyro_sensitivity := F32.lit 875 100 |}.

Definition Acq_reset : Acq :=
  {| xSensorStats := SensorAcqStats_zero;
     ucSensorEnabled := 0;
     xIMUConfig := LSM6DSL_Config_zero;
     last_stats_update := 0;
     sample_count_in_period := 0 |}.

Definition Rtos_reset : Rtos :=
  {| tick := 0; critical_nesting := 0; i2c_calls := 0; rand_calls := 0;
     send_calls := 0; xSensorDataQueue := []; trace := [] |}.

Definition World_reset : World :=
  {| drv := Driver_reset; acq := Acq_reset; rtos := Rtos_reset |}.

Definition with_drv (f : Driver -> Driver) (w : World) : World :=
  {| drv := f (drv w); acq := acq w; rtos := rtos w |}.
Definition with_acq (f : Acq -> Acq) (w : World) : World :=
  {| drv := drv w; acq := f (acq w); rtos := rtos w |}.
Definition with_rtos (f : Rtos -> Rtos) (w : World) : World :=
  {| drv := drv w; acq := acq w; rtos := f (rtos w) |}.

Definition set_stats (f : SensorAcqStats_t -> SensorAcqStats_t) (a : Acq) : Acq :=
  {| xSensorStats := f (xSensorStats a);
     ucSensorEnabled := ucSensorEnabled a;
     xIMUConfig := xIMUConfig a;
     last_stats_update := last_stats_update a;
     sample_count_in_period := sample_count_in_period a |}.

Definition set_state (s : SensorAcqState_t) (x : SensorAcqStats_t) : SensorAcqStats_t :=
  {| total_samples := total_samples x; error_count := error_count x;
     last_sample_time := last_sample_time x; sample_rate := sample_rate x;
     state := s |}.

Definition set_enabled (v : Z) (a : Acq) : Acq :=
  {| xSensorStats := xSensorStats a;
     ucSensorEnabled := v;
     xIMUConfig := xIMUConfig a;
     last_stats_update := last_stats_update a;
     sample_count_in_period := sample_count_in_period a |}.

Definition set_config (c : LSM6DSL_Config_t) (a : Acq) : Acq :=
  {| xSensorStats := xSensorStats a;
     ucSensorEnabled := ucSensorEnabled a;
     xIMUConfig := c;
     last_stats_update := last_stats_update a;
     sample_count_in_period := sample_count_in_period a |}.

Definition emit (e : Event) (r : Rtos) : Rtos :=
  {| tick := tick r; critical_nesting := critical_nesting r;
     i2c_calls := i2c_calls r; rand_calls := rand_calls r;
     send_calls := send_calls r; xSensorDataQueue := xSensorDataQueue r;
     trace := trace r ++ [e] |}.

(** ** The monad of the code: read the environment, thread the world *)

Definition M (A : Type) : Type := Env -> World -> A * World.

Definition ret {A : Type} (a : A) : M A := fun _ w => (a, w).

Definition bind {A B : Type} (c : M A) (k : A -> M B) : M B :=
  fun env w => let (a, w') := c env w in k a env w'.

Notation "x <- c ;; k" := (bind c (fun x => k))
  (at level 61, c at next level, right associativity).
Notation "' pat <- c ;; k" := (bind c (fun x => match x with pat => k end))
  (at level 61, pat pattern, c at next level, right associativity).
Notation "c ;; k" := (bind c (fun _ => k))
  (at level 61, right associativity).

Definition get : M World := fun _ w => (w, w).
Definition modify (f : World -> World) : M unit := fun _ w => (tt, f w).
Definition log_event (e : Event) : M unit := modify (with_rtos (emit e)).

(** ** Kernel and bus primitives *)

Definition xTaskGetTickCount : M Z := fun _ w => (tick (rtos w), w).

Definition pass_ticks (n : Z) (r : Rtos) : Rtos :=
  {| tick := u32 (tick r + n); critical_nesting := critical_nesting r;
     i2c_calls := i2c_calls r; rand_calls := rand_calls r;
     send_calls := send_calls r; xSensorDataQueue := xSensorDataQueue r;
     trace := trace r |}.

Definition vTaskDelay (ticks : Z) : M unit :=
  modify (with_rtos (pass_ticks ticks)) ;;
  log_event (EvDelay ticks).

(** The next register transaction: its answer, and the time it took. *)
Definition next_reply : M BusReply := fun env w =>
  let r := i2c_reply env (i2c_calls (rtos w)) in
  (r, with_rtos (fun k =>
         {| tick := u32 (tick k + elapsed r);
            critical_nesting := critical_nesting k;
            i2c_calls := S (i2c_calls k); rand_calls := rand_calls k;
            send_calls := send_calls k;
            xSensorDataQueue := xSensorDataQueue k;
            trace := trace k |}) w).

(** The receive buffer after a read of [len] bytes: the bytes the device
    delivered, the old content where it delivered none. *)
Definition fill_buffer (buf rx : list Z) (len : nat) : list Z :=
  map (fun i => u8 (nth i rx (nth i buf 0))) (seq 0 len).

(** ** [lsm6dsl.c] *)

Definition LSM6DSL_ReadReg (reg_addr : Z) (data : list Z) (len : nat)
  : M (HAL_StatusTypeDef * list Z) :=
  r <- next_reply ;;
  if lock_taken r then
    log_event (EvReadReg reg_addr len (hal_status r)) ;;
    ret (hal_status r, fill_buffer data (rx_bytes r) len)
  else
    log_event (EvReadReg reg_addr len HAL_TIMEOUT) ;;
    ret (HAL_TIMEOUT, data).

Definition LSM6DSL_WriteReg (reg_addr : Z) (data : list Z) (len : nat)
  : M HAL_StatusTypeDef :=
  r <- next_reply ;;
  if lock_taken r then
    log_event (EvWriteReg reg_addr (firstn len data) (hal_status r)) ;;
    ret (hal_status r)
  else
    log_event (EvWriteReg reg_addr (firstn len data) HAL_TIMEOUT) ;;
    ret HAL_TIMEOUT.

Definition set_accel_sensitivity (x : float32) : M unit :=
  modify (with_drv (fun d =>
    {| accel_sensitivity := x; gyro_sensitivity := gyro_sensitivity d |})).

Definition set_gyro_sensitivity (x : float32) : M unit :=
  modify (with_drv (fun d =>
    {| accel_sensitivity := accel_sensitivity d; gyro_sensitivity := x |})).

Definition LSM6DSL_UpdateSensitivity (accel_fs gyro_fs : Z) : M unit :=
  (if accel_fs =? LSM6DSL_XL_FS_2G then set_accel_sensitivity (F32.lit 61 1000)
   else if accel_fs =? LSM6DSL_XL_FS_4G then set_accel_sensitivity (F32.lit 122 1000)
   else if accel_fs =? LSM6DSL_XL_FS_8G then set_accel_sensitivity (F32.lit 244 1000)
   else if accel_fs =? LSM6DSL_XL_FS_16G then set_accel_sensitivity (F32.lit 488 1000)
   else set_accel_sensitivity (F32.lit 61 1000)) ;;
  (if gyro_fs =? LSM6DSL_GY_FS_125_DPS then set_gyro_sensitivity (F32.lit 4375 1000)
   else if gyro_fs =? LSM6DSL_GY_FS_250_DPS then set_gyro_sensitivity (F32.lit 875 100)
   else if gyro_fs =? LSM6DSL_GY_FS_500_DPS then set_gyro_sensitivity (F32.lit 1750 100)
   else if gyro_fs =? LSM6DSL_GY_FS_1000_DPS then set_gyro_sensitivity (F32.lit 350 10)
   else if gyro_fs =? LSM6DSL_GY_FS_2000_DPS then set_gyro_sensitivity (F32.lit 700 10)
   else set_gyro_sensitivity (F32.lit 875 100)).

Definition LSM6DSL_ReadWhoAmI (who_am_i : Z) : M (HAL_StatusTypeDef * Z) :=
  '(status, buf) <- LSM6DSL_ReadReg LSM6DSL_WHO_AM_I [who_am_i] 1 ;;
  ret (status, nth 0 buf who_am_i).

Definition LSM6DSL_GetStatus (status_reg : Z) : M (HAL_StatusTypeDef * Z) :=
  '(status, buf) <- LSM6DSL_ReadReg LSM6DSL_STATUS_REG [status_reg] 1 ;;
  ret (status, nth 0 buf status_reg).

Definition LSM6DSL_SoftReset : M HAL_StatusTypeDef :=
  let reg_value := 0x01 in
  LSM6DSL_WriteReg LSM6DSL_CTRL3_C [reg_value] 1.

Definition LSM6DSL_Init (config : LSM6DSL_Config_t) : M HAL_StatusTypeDef :=
  let who_am_i := 0 in
  '(status, who_am_i) <- LSM6DSL_ReadWhoAmI who_am_i ;;
  if negb (is_ok status) || negb (who_am_i =? LSM6DSL_WHO_AM_I_VALUE) then
    ret HAL_ERROR
  else
  status <- LSM6DSL_SoftReset ;;
  if negb (is_ok status) then ret status else
  vTaskDelay (pdMS_TO_TICKS 10) ;;
  let reg_value := u8 (Z.lor (accel_odr config) (accel_fs config)) in
  status <- LSM6DSL_WriteReg LSM6DSL_CTRL1_XL [reg_value] 1 ;;
  if negb (is_ok status) then ret status else
  let reg_value := u8 (Z.lor (gyro_odr config) (gyro_fs config)) in
  status <- LSM6DSL_WriteReg LSM6DSL_CTRL2_G [reg_value] 1 ;;
  if negb (is_ok status) then ret status else
  let reg_value := 0x40 in
  status <- LSM6DSL_WriteReg LSM6DSL_CTRL3_C [reg_value] 1 ;;
  if negb (is_ok status) then ret status else
  LSM6DSL_UpdateSensitivity (accel_fs config) (gyro_fs config) ;;
  ret HAL_OK.

(** [(int16_t)((raw_data[hi] << 8) | raw_data[lo])] *)
Definition raw_axis (raw_data : list Z) (lo hi : nat) : Z :=
  int16_cast (Z.lor (Z.shiftl (nth hi raw_data 0) 8) (nth lo raw_data 0)).

(** [25.0f + (float)raw_temp / 256.0f] *)
Definition temp_celsius (raw_temp : Z) : float32 :=
  F32.add (F32.of_Z 25) (F32.div (F32.of_Z raw_temp) (F32.of_Z 256)).

(** [(float)raw * accel_sensitivity * 9.80665f / 1000.0f] *)
Definition accel_ms2 (sens : float32) (raw : Z) : float32 :=
  F32.div (F32.mul (F32.mul (F32.of_Z raw) sens) (F32.lit 980665 100000))
          (F32.of_Z 1000).

(** [(float)raw * gyro_sensitivity * 3.14159f / (180.0f * 1000.0f)] *)
Definition gyro_rads (sens : float32) (raw : Z) : float32 :=
  F32.div (F32.mul (F32.mul (F32.of_Z raw) sens) (F32.lit 314159 100000))
          (F32.mul (F32.of_Z 180) (F32.of_Z 1000)).

Definition set_data_ready (v : Z) (d : LSM6DSL_Data_t) : LSM6DSL_Data_t :=
  {| imu_accel_x := imu_accel_x d; imu_accel_y := imu_accel_y d;
     imu_accel_z := imu_accel_z d;
     imu_gyro_x := imu_gyro_x d; imu_gyro_y := imu_gyro_y d;
     imu_gyro_z := imu_gyro_z d;
     imu_temperature := imu_temperature d; imu_timestamp := imu_timestamp d;
     data_ready := v |}.

Definition LSM6DSL_ReadData (data : LSM6DSL_Data_t)
  : M (HAL_StatusTypeDef * LSM6DSL_Data_t) :=
  let raw_data := repeat 0 14 in
  let status_reg := 0 in
  '(status, status_reg) <- LSM6DSL_GetStatus status_reg ;;
  if negb (is_ok status) then ret (status, data) else
  let data :=
    set_data_ready
      (if Z.land status_reg (Z.lor LSM6DSL_STATUS_XLDA LSM6DSL_STATUS_GDA) =? 0
       then 0 else 1) data in
  if data_ready data =? 0 then ret (HAL_OK, data) else
  '(status, raw_data) <- LSM6DSL_ReadReg LSM6DSL_OUT_TEMP_L raw_data 14 ;;
  if negb (is_ok status) then ret (status, data) else
  let raw_temp := raw_axis raw_data 0 1 in
  let raw_gyro0 := raw_axis raw_data 2 3 in
  let raw_gyro1 := raw_axis raw_data 4 5 in
  let raw_gyro2 := raw_axis raw_data 6 7 in
  let raw_accel0 := raw_axis raw_data 8 9 in
  let raw_accel1 := raw_axis raw_data 10 11 in
  let raw_accel2 := raw_axis raw_data 12 13 in
  w <- get ;;
  now <- xTaskGetTickCount ;;
  ret (HAL_OK,
       {| imu_accel_x := accel_ms2 (accel_sensitivity (drv w)) raw_accel0;
          imu_accel_y := accel_ms2 (accel_sensitivity (drv w)) raw_accel1;
          imu_accel_z := accel_ms2 (accel_sensitivity (drv w)) raw_accel2;
          imu_gyro_x := gyro_rads (gyro_sensitivity (drv w)) raw_gyro0;
          imu_gyro_y := gyro_rads (gyro_sensitivity (drv w)) raw_gyro1;
          imu_gyro_z := gyro_rads (gyro_sensitivity (drv w)) raw_gyro2;
          imu_temperature := temp_celsius raw_temp;
          imu_timestamp := now;
          data_ready := data_ready data |}).

Definition LSM6DSL_Enable (enable : Z) : M HAL_StatusTypeDef :=
  if negb (enable =? 0) then
    let reg_value := u8 (Z.lor LSM6DSL_XL_ODR_104_HZ LSM6DSL_XL_FS_2G) in
    status <- LSM6DSL_WriteReg LSM6DSL_CTRL1_XL [reg_value] 1 ;;
    if negb (is_ok status) then ret status else
    let reg_value := u8 (Z.lor LSM6DSL_GY_ODR_104_HZ LSM6DSL_GY_FS_250_DPS) in
    LSM6DSL_WriteReg LSM6DSL_CTRL2_G [reg_value] 1
  else
    let reg_value := LSM6DSL_XL_ODR_POWER_DOWN in
    status <- LSM6DSL_WriteReg LSM6DSL_CTRL1_XL [reg_value] 1 ;;
    if negb (is_ok status) then ret status else
    let reg_value := LSM6DSL_GY_ODR_POWER_DOWN in
    LSM6DSL_WriteReg LSM6DSL_CTRL2_G [reg_value] 1.

Definition LSM6DSL_ConfigInterrupt (int_config : Z) : M HAL_StatusTypeDef :=
  let reg_value := int_config in
  LSM6DSL_WriteReg LSM6DSL_CTRL4_C [reg_value] 1.

(** ** Kernel services used by [sensor_acq.c] *)

Definition taskENTER_CRITICAL : M unit :=
  modify (with_rtos (fun k =>
    {| tick := tick k; critical_nesting := S (critical_nesting k);
       i2c_calls := i2c_calls k; rand_calls := rand_calls k;
       send_calls := send_calls k; xSensorDataQueue := xSensorDataQueue k;
       trace := trace k |})) ;;
  log_event EvEnterCritical.

Definition taskEXIT_CRITICAL : M unit :=
  modify (with_rtos (fun k =>
    {| tick := tick k; critical_nesting := pred (critical_nesting k);
       i2c_calls := i2c_calls k; rand_calls := rand_calls k;
       send_calls := send_calls k; xSensorDataQueue := xSensorDataQueue k;
       trace := trace k |})) ;;
  log_event EvExitCritical.

Definition rand : M Z := fun env w =>
  (rand_value env (rand_calls (rtos w)),
   with_rtos (fun k =>
     {| tick := tick k; critical_nesting := critical_nesting k;
        i2c_calls := i2c_calls k; rand_calls := S (rand_calls k);
        send_calls := send_calls k; xSensorDataQueue := xSensorDataQueue k;
        trace := trace k |}) w).

(** [xQueueSend(xSensorDataQueue, item, ticks) == pdPASS]: the item is
    copied to the back of the queue when, after what the consumer took
    meanwhile, fewer than ten samples wait in it; otherwise the call gives
    up after [ticks] and the queue keeps what it has. *)
Definition xQueueSend (item : SensorData_t) (ticks : Z) : M bool := fun env w =>
  let k := rtos w in
  let q := skipn (consumer_takes env (send_calls k)) (xSensorDataQueue k) in
  let sent := (List.length q <? xSensorDataQueue_length)%nat in
  (sent,
   with_rtos (fun k =>
     emit (EvQueueSend sent)
       {| tick := if sent then tick k else u32 (tick k + ticks);
          critical_nesting := critical_nesting k;
          i2c_calls := i2c_calls k; rand_calls := rand_calls k;
          send_calls := S (send_calls k);
          xSensorDataQueue := if sent then q ++ [item] else q;
          trace := trace k |}) w).

(** [vTaskDelayUntil(&xLastWakeTime, xFrequency)]: returns the new
    [xLastWakeTime]; the task sleeps to that tick unless it is already
    past (the comparisons are the kernel's, made for a wrapping counter). *)
Definition vTaskDelayUntil (xLastWakeTime xFrequency : Z) : M Z :=
  now <- xTaskGetTickCount ;;
  let xTimeToWake := u32 (xLastWakeTime + xFrequency) in
  let xShouldDelay :=
    if now <? xLastWakeTime
    then (xTimeToWake <? xLastWakeTime) && (now <? xTimeToWake)
    else (xTimeToWake <? xLastWakeTime) || (now <? xTimeToWake) in
  (if xShouldDelay then vTaskDelay (u32 (xTimeToWake - now)) else ret tt) ;;
  ret xTimeToWake.

(** ** [sensor_acq.c] *)

(** [snprintf] into a buffer and [HAL_UART_Transmit]: the message leaves
    on the UART. *)
Definition SensorAcq_LogError (error_msg : string) : M unit :=
  log_event (EvLog error_msg).

Definition set_xSensorStats_state (s : SensorAcqState_t) : M unit :=
  modify (with_acq (set_stats (set_state s))).

Definition incr_error_count : M unit :=
  modify (with_acq (set_stats (fun x =>
    {| total_samples := total_samples x;
       error_count := u32 (error_count x + 1);
       last_sample_time := last_sample_time x;
       sample_rate := sample_rate x;
       state := state x |}))).

Definition SensorAcq_Init : M HAL_StatusTypeDef :=
  modify (with_acq (set_stats (fun _ => SensorAcqStats_zero))) ;;
  set_xSensorStats_state SENSOR_ACQ_INIT ;;
  modify (with_acq (set_config
    {| accel_odr := LSM6DSL_XL_ODR_104_HZ;
       accel_fs := LSM6DSL_XL_FS_2G;
       gyro_odr := LSM6DSL_GY_ODR_104_HZ;
       gyro_fs := LSM6DSL_GY_FS_250_DPS;
       fifo_enable := 0 |})) ;;
  w <- get ;;
  status <- LSM6DSL_Init (xIMUConfig (acq w)) ;;
  if negb (is_ok status) then
    SensorAcq_LogError "LSM6DSL initialization failed" ;;
    set_xSensorStats_state SENSOR_ACQ_ERROR ;;
    ret status
  else
    set_xSensorStats_state SENSOR_ACQ_INIT ;;
    ret HAL_OK.

Definition SensorAcq_ReadIMU (sensor_data : SensorData_t)
  : M (HAL_StatusTypeDef * SensorData_t) :=
  let imu_data := LSM6DSL_Data_zero in
  '(status, imu_data) <- LSM6DSL_ReadData imu_data ;;
  if is_ok status && negb (data_ready imu_data =? 0) then
    ret (status,
         {| timestamp := timestamp sensor_data;
            accel_x := imu_accel_x imu_data;
            accel_y := imu_accel_y imu_data;
            accel_z := imu_accel_z imu_data;
            gyro_x := imu_gyro_x imu_data;
            gyro_y := imu_gyro_y imu_data;
            gyro_z := imu_gyro_z imu_data;
            pressure := pressure sensor_data;
            temperature :=
              if negb (F32.eqb (imu_temperature imu_data) F32.zero)
              then imu_temperature imu_data
              else temperature sensor_data;
            humidity := humidity sensor_data;
            data_valid := data_valid sensor_data |})
  else if is_ok status && (data_ready imu_data =? 0) then
    ret (HAL_OK, sensor_data)
  else
    ret (status, sensor_data).

Definition SensorAcq_ReadPressure (sensor_data : SensorData_t)
  : M (HAL_StatusTypeDef * SensorData_t) :=
  r <- rand ;;
  ret (HAL_OK,
       {| timestamp := timestamp sensor_data;
          accel_x := accel_x sensor_data; accel_y := accel_y sensor_data;
          accel_z := accel_z sensor_data;
          gyro_x := gyro_x sensor_data; gyro_y := gyro_y sensor_data;
          gyro_z := gyro_z sensor_data;
          pressure :=
            F32.add (F32.lit 101325 100)
                    (F32.div (F32.of_Z (Z.rem r 100 - 50)) (F32.of_Z 10));
          temperature := temperature sensor_data;
          humidity := humidity sensor_data;
          data_valid := data_valid sensor_data |}).

Definition SensorAcq_ReadHumidity (sensor_data : SensorData_t)
  : M (HAL_StatusTypeDef * SensorData_t) :=
  r <- rand ;;
  let hum :=
    F32.add (F32.of_Z 45) (F32.div (F32.of_Z (Z.rem r 200 - 100)) (F32.of_Z 10)) in
  temp <- (if F32.eqb (temperature sensor_data) F32.zero then
             r <- rand ;;
             ret (F32.add (F32.of_Z 22)
                          (F32.div (F32.of_Z (Z.rem r 100 - 50)) (F32.of_Z 10)))
           else ret (temperature sensor_data)) ;;
  ret (HAL_OK,
       {| timestamp := timestamp sensor_data;
          accel_x := accel_x sensor_data; accel_y := accel_y sensor_data;
          accel_z := accel_z sensor_data;
          gyro_x := gyro_x sensor_data; gyro_y := gyro_y sensor_data;
          gyro_z := gyro_z sensor_data;
          pressure := pressure sensor_data;
          temperature := temp;
          humidity := hum;
          data_valid := data_valid sensor_data |}).

Definition SensorAcq_UpdateStats (sample_time : Z) : M unit :=
  modify (with_acq (fun a =>
    let x := xSensorStats a in
    let count := u32 (sample_count_in_period a + 1) in
    let window := u32 (sample_time - last_stats_update a) in
    let closes := window >=? 1000 in
    {| xSensorStats :=
         {| total_samples := u32 (total_samples x + 1);
            error_count := error_count x;
            last_sample_time := sample_time;
            sample_rate :=
              if closes
              then F32.div (F32.mul (F32.of_Z count) (F32.of_Z 1000))
                           (F32.of_Z window)
              else sample_rate x;
            state := state x |};
       ucSensorEnabled := ucSensorEnabled a;
       xIMUConfig := xIMUConfig a;
       last_stats_update := if closes then sample_time else last_stats_update a;
       sample_count_in_period := if closes then 0 else count |})).

(** [stats] is the caller's buffer: [None] for a null pointer, the
    buffer's content otherwise; the result is the buffer after the call. *)
Definition SensorAcq_GetStats (stats : option SensorAcqStats_t)
  : M (option SensorAcqStats_t) :=
  match stats with
  | Some _ =>
      taskENTER_CRITICAL ;;
      w <- get ;;
      taskEXIT_CRITICAL ;;
      ret (Some (xSensorStats (acq w)))
  | None => ret None
  end.


Definition SensorAcq_Enable (enable : Z) : M HAL_StatusTypeDef :=
  w <- get ;;
  if negb (enable =? 0) && (ucSensorEnabled (acq w) =? 0) then
    status <- LSM6DSL_Enable 1 ;;
    (if is_ok status then
       modify (with_acq (set_enabled 1)) ;;
       set_xSensorStats_state SENSOR_ACQ_RUNNING ;;
       SensorAcq_LogError "Sensor acquisition enabled"
     else ret tt) ;;
    ret status
  else if (enable =? 0) && negb (ucSensorEnabled (acq w) =? 0) then
    status <- LSM6DSL_Enable 0 ;;
    modify (with_acq (set_enabled 0)) ;;
    set_xSensorStats_state SENSOR_ACQ_STOPPED ;;
    SensorAcq_LogError "Sensor acquisition disabled" ;;
    ret status
  else
    ret HAL_OK.

(** *** The task *)

(** The automatic variables of [SensorAcqTask] that live across
    iterations of its loop. *)
Record TaskLocals : Type := {
  xLastWakeTime : Z;
  sensor_data : SensorData_t;
  status : HAL_StatusTypeDef;
  retry_count : Z
}.

Definition xFrequency : Z := pdMS_TO_TICKS SENSOR_SAMPLE_PERIOD_MS.

(** What [SensorAcqTask] does before it enters its loop. *)
Definition SensorAcqTask_entry : M TaskLocals :=
  now <- xTaskGetTickCount ;;
  set_xSensorStats_state SENSOR_ACQ_RUNNING ;;
  modify (with_acq (set_enabled 1)) ;;
  SensorAcq_LogError "SensorAcq task started" ;;
  ret {| xLastWakeTime := now; sensor_data := SensorData_zero;
         status := HAL_OK; retry_count := 0 |}.

Definition set_sample (sd : SensorData_t) (ts valid : Z) : SensorData_t :=
  {| timestamp := ts;
     accel_x := accel_x sd; accel_y := accel_y sd; accel_z := accel_z sd;
     gyro_x := gyro_x sd; gyro_y := gyro_y sd; gyro_z := gyro_z sd;
     pressure := pressure sd; temperature := temperature sd;
     humidity := humidity sd; data_valid := valid |}.

(** The reads of one cycle: the sample is cleared and stamped, then the
    IMU, the pressure and the humidity readers are called, each one only
    if the status is still [HAL_OK]. *)
Definition cycle_reads : M (Z * HAL_StatusTypeDef * SensorData_t) :=
  sample_start_time <- xTaskGetTickCount ;;
  let sensor_data := set_sample SensorData_zero sample_start_time 0 in
  '(status, sensor_data) <- SensorAcq_ReadIMU sensor_data ;;
  '(status, sensor_data) <-
     (if is_ok status then SensorAcq_ReadPressure sensor_data
      else ret (status, sensor_data)) ;;
  '(status, sensor_data) <-
     (if is_ok status then SensorAcq_ReadHumidity sensor_data
      else ret (status, sensor_data)) ;;
  ret (sample_start_time, status, sensor_data).

(** What the cycle does with the outcome of its reads. *)
Definition cycle_outcome (l : TaskLocals) (sample_start_time : Z)
    (status : HAL_StatusTypeDef) (sensor_data : SensorData_t) : M TaskLocals :=
  if is_ok status then
    let sensor_data := set_sample sensor_data (timestamp sensor_data) 1 in
    let retry_count := 0 in
    sent <- xQueueSend sensor_data (pdMS_TO_TICKS 10) ;;
    (if negb sent then
       SensorAcq_LogError "Failed to send sensor data to queue" ;;
       incr_error_count
     else ret tt) ;;
    SensorAcq_UpdateStats sample_start_time ;;
    ret {| xLastWakeTime := xLastWakeTime l; sensor_data := sensor_data;
           status := status; retry_count := retry_count |}
  else
    let retry_count := u8 (retry_count l + 1) in
    incr_error_count ;;
    if retry_count >=? SENSOR_MAX_RETRY_COUNT then
      SensorAcq_LogError "Max sensor read retries exceeded" ;;
      set_xSensorStats_state SENSOR_ACQ_ERROR ;;
      let retry_count := 0 in
      init_status <- SensorAcq_Init ;;
      (if is_ok init_status then
         set_xSensorStats_state SENSOR_ACQ_RUNNING ;;
         SensorAcq_LogError "Sensor reinitialized successfully"
       else ret tt) ;;
      ret {| xLastWakeTime := xLastWakeTime l; sensor_data := sensor_data;
             status := status; retry_count := retry_count |}
    else
      ret {| xLastWakeTime := xLastWakeTime l; sensor_data := sensor_data;
             status := status; retry_count := retry_count |}.

(** One iteration of the [for (;;)] loop. *)
Definition SensorAcqTask_cycle (l : TaskLocals) : M TaskLocals :=
  w <- get ;;
  l <- (if negb (ucSensorEnabled (acq w) =? 0) then
          '(sample_start_time, status, sensor_data) <- cycle_reads ;;
          cycle_outcome l sample_start_time status sensor_data
        else ret l) ;;
  wake <- vTaskDelayUntil (xLastWakeTime l) xFrequency ;;
  ret {| xLastWakeTime := wake; sensor_data := sensor_data l;
         status := status l; retry_count := retry_count l |}.

(** The loop, cut after [n] iterations. *)
Fixpoint SensorAcqTask_loop (n : nat) (l : TaskLocals) : M TaskLocals :=
  match n with
  | O => ret l
  | S n' => l' <- SensorAcqTask_cycle l ;; SensorAcqTask_loop n' l'
  end.

Definition SensorAcqTask (n : nat) : M TaskLocals :=
  l <- SensorAcqTask_entry ;;
  SensorAcqTask_loop n l.

(** * Vocabulary of the properties *)

Definition stats_of (w : World) : SensorAcqStats_t := xSensorStats (acq w).
Definition state_of (w : World) : SensorAcqState_t := state (stats_of w).
Definition events_of (w : World) : list Event := trace (rtos w).

(** A register transaction went through: the mutex was taken and the HAL
    call returned [HAL_OK]. *)
Definition reply_ok (r : BusReply) : Prop :=
  lock_taken r = true /\ hal_status r = HAL_OK.

(** The answer to the next register transaction, and to the one after. *)
Definition first_reply (env : Env) (w : World) : BusReply :=
  i2c_reply env (i2c_calls (rtos w)).
Definition second_reply (env : Env) (w : World) : BusReply :=
  i2c_reply env (S (i2c_calls (rtos w))).

(** The answer to the [i]-th register transaction from [w] on. *)
Definition reply_at (env : Env) (w : World) (i : nat) : BusReply :=
  i2c_reply env (i + i2c_calls (rtos w)).

(** The world after the next register transaction, which leaves the
    event [e]. *)
Definition bus_step (env : Env) (w : World) (e : Event) : World :=
  with_rtos (emit e) (snd (next_reply env w)).

(** Byte [i] of what a reply delivers; a byte not delivered reads as the
    zero the receive buffers are initialised with. *)
Definition reply_byte (r : BusReply) (i : nat) : Z := u8 (nth i (rx_bytes r) 0).

(** The specification's reading of an axis: two bytes, low then high, as a
    little-endian signed 16-bit number. *)
Definition le_int16 (lo hi : Z) : Z :=
  let u := lo + 256 * hi in
  if u <? 32768 then u else u - 65536.

(** The 256 values of a byte. *)
Definition all_bytes : list Z := map Z.of_nat (seq 0 256).

(** The decoded temperature is a finite number and is exactly
    [25 + raw / 256]. *)
Definition temp_exact (raw : Z) : bool :=
  F32.is_finite (temp_celsius raw) &&
  Qeq_bool (F32.to_Q (temp_celsius raw)) (25 + (raw # 256)).

(** An initialisation of the driver starts by reading the identity
    register, and nothing else reads it: each such read in the trace is
    one initialisation attempt. *)
Definition is_init_attempt (e : Event) : bool :=
  match e with
  | EvReadReg reg _ _ => reg =? LSM6DSL_WHO_AM_I
  | _ => false
  end.

Definition init_attempts (w : World) : nat :=
  List.length (filter is_init_attempt (events_of w)).

(** Kinds of events. *)
Definition mode_write (e : Event) : Prop :=
  exists v st,
    e = EvWriteReg LSM6DSL_CTRL1_XL [v] st \/
    e = EvWriteReg LSM6DSL_CTRL2_G [v] st.

Definition sample_read (e : Event) : Prop :=
  exists len st,
    e = EvReadReg LSM6DSL_STATUS_REG len st \/
    e = EvReadReg LSM6DSL_OUT_TEMP_L len st.

Definition is_delay (e : Event) : Prop := exists n, e = EvDelay n.

Definition write_or_delay (e : Event) : Prop :=
  (exists reg bytes st, e = EvWriteReg reg bytes st) \/ is_delay e.

(** A precondition, a computation, a postcondition on its result and the
    world it leaves. *)
Definition hoare {A : Type} (P : World -> Prop) (c : M A)
    (Q : A -> World -> Prop) : Prop :=
  forall env w, P w -> Q (fst (c env w)) (snd (c env w)).

(** ** Frames: what a computation leaves alone *)

Class Frame (R : World -> World -> Prop) : Prop := {
  frame_refl : forall w, R w w;
  frame_trans : forall w1 w2 w3, R w1 w2 -> R w2 w3 -> R w1 w3
}.

Definition keeps (R : World -> World -> Prop) {A : Type} (c : M A) : Prop :=
  forall env w, R w (snd (c env w)).

(** [quiet P w w']: from [w] to [w'] the acquisition module's variables,
    the queue and the critical nesting did not move, and every event added
    to the trace satisfies [P]. *)
Definition quiet (P : Event -> Prop) (w w' : World) : Prop :=
  acq w' = acq w /\
  xSensorDataQueue (rtos w') = xSensorDataQueue (rtos w) /\
  send_calls (rtos w') = send_calls (rtos w) /\
  critical_nesting (rtos w') = critical_nesting (rtos w) /\
  exists evs, events_of w' = events_of w ++ evs /\ Forall P evs.

(** [same_drv w w']: the cached sensitivities did not move. *)
Definition same_drv (w w' : World) : Prop := drv w' = drv w.

(** ** The sensitivity tables *)

(** [x] is within [2^-p] of the decimal [q]. *)
Definition close_to (x : float32) (q : Q) (p : positive) : bool :=
  F32.is_finite x && Qle_bool (Qabs (F32.to_Q x - q)) (1 # (2 ^ p)).

(** The accelerometer table of the specification: mg/LSB by full-scale
    code, the +-2g coefficient for a code that is none of the four. *)
Definition accel_table_holds (fs : Z) (s : float32) : Prop :=
  (fs = LSM6DSL_XL_FS_2G -> s = F32.lit 61 1000) /\
  (fs = LSM6DSL_XL_FS_4G -> s = F32.lit 122 1000) /\
  (fs = LSM6DSL_XL_FS_8G -> s = F32.lit 244 1000) /\
  (fs = LSM6DSL_XL_FS_16G -> s = F32.lit 488 1000) /\
  (~ In fs [LSM6DSL_XL_FS_2G; LSM6DSL_XL_FS_4G; LSM6DSL_XL_FS_8G;
            LSM6DSL_XL_FS_16G] -> s = F32.lit 61 1000).

(** The gyroscope table of the specification for the five codes it
    lists: mdps/LSB by full-scale code. *)
Definition gyro_table_holds (fs : Z) (s : float32) : Prop :=
  (fs = LSM6DSL_GY_FS_125_DPS -> s = F32.lit 4375 1000) /\
  (fs = LSM6DSL_GY_FS_250_DPS -> s = F32.lit 875 100) /\
  (fs = LSM6DSL_GY_FS_500_DPS -> s = F32.lit 1750 100) /\
  (fs = LSM6DSL_GY_FS_1000_DPS -> s = F32.lit 350 10) /\
  (fs = LSM6DSL_GY_FS_2000_DPS -> s = F32.lit 700 10).

Definition gyro_code_listed (fs : Z) : Prop :=
  In fs [LSM6DSL_GY_FS_125_DPS; LSM6DSL_GY_FS_250_DPS; LSM6DSL_GY_FS_500_DPS;
         LSM6DSL_GY_FS_1000_DPS; LSM6DSL_GY_FS_2000_DPS].

(** ** The scheduler's cycle *)

(** A cycle fails when the acquisition is enabled and its reads end with
    a status other than [HAL_OK]. *)
Definition cycle_fails (env : Env) (w : World) : Prop :=
  ucSensorEnabled (acq w) <> 0 /\
  snd (fst (fst (cycle_reads env w))) <> HAL_OK.

(** A cycle's reads all succeed. *)
Definition cycle_reads_ok (env : Env) (w : World) : Prop :=
  ucSensorEnabled (acq w) <> 0 /\
  snd (fst (fst (cycle_reads env w))) = HAL_OK.

(** The next [xQueueSend] finds the queue full: ten samples wait in it
    after what the consumer takes. *)
Definition queue_full (env : Env) (w : World) : Prop :=
  (xSensorDataQueue_length <=
   List.length (skipn (consumer_takes env (send_calls (rtos w)))
                      (xSensorDataQueue (rtos w))))%nat.


(** A sequence of calls of the driver's [LSM6DSL_Enable]. *)
Fixpoint enable_seq (ons : list Z) : M (list HAL_StatusTypeDef) :=
  match ons with
  | [] => ret []
  | on :: rest =>
      st <- LSM6DSL_Enable on ;;
      sts <- enable_seq rest ;;
      ret (st :: sts)
  end.

(** ** Concrete environments and worlds *)

Definition reply_with (st : HAL_StatusTypeDef) (bytes : list Z) : BusReply :=
  {| lock_taken := true; hal_status := st; rx_bytes := bytes; elapsed := 1 |}.

(** The sensor answers every transaction and identifies itself. *)
Definition env_ok : Env :=
  {| i2c_reply := fun _ => reply_with HAL_OK [0x6A];
     rand_value := fun _ => 0;
     consumer_takes := fun _ => 0%nat |}.

(** The bus fails every transaction. *)
Definition env_dead : Env :=
  {| i2c_reply := fun _ => reply_with HAL_ERROR [];
     rand_value := fun _ => 0;
     consumer_takes := fun _ => 0%nat |}.

(** Another device answers: the identity register reads [0x69]. *)
Definition env_other_device : Env :=
  {| i2c_reply := fun _ => reply_with HAL_OK [0x69];
     rand_value := fun _ => 0;
     consumer_takes := fun _ => 0%nat |}.

(** The bus mutex is never obtained. *)
Definition env_bus_busy : Env :=
  {| i2c_reply := fun _ =>
       {| lock_taken := false; hal_status := HAL_OK; rx_bytes := [];
          elapsed := 100 |};
     rand_value := fun _ => 0;
     consumer_takes := fun _ => 0%nat |}.

(** The status register reads [status], and the burst that follows
    delivers [burst]. *)
Definition env_sample (status : Z) (burst : list Z) : Env :=
  {| i2c_reply := fun n =>
       match n with
       | O => reply_with HAL_OK [status]
       | _ => reply_with HAL_OK burst
       end;
     rand_value := fun _ => 7;
     consumer_takes := fun _ => 0%nat |}.

(** A burst: temperature 256, gyroscope (1000, 0, -1000), accelerometer
    (1000, 0, -32768), each low byte first. *)
Definition burst_example : list Z :=
  [0x00; 0x01; 0xE8; 0x03; 0x00; 0x00; 0x18; 0xFC;
   0xE8; 0x03; 0x00; 0x00; 0x00; 0x80].


(** The sensor has new data in every cycle; the consumer never reads. *)
Definition env_stalled_consumer : Env :=
  {| i2c_reply := fun _ => reply_with HAL_OK [0x03];
     rand_value := fun _ => 7;
     consumer_takes := fun _ => 0%nat |}.

Definition cfg_8g_2000dps : LSM6DSL_Config_t :=
  {| accel_odr := LSM6DSL_XL_ODR_104_HZ; accel_fs := LSM6DSL_XL_FS_8G;
     gyro_odr := LSM6DSL_GY_ODR_104_HZ; gyro_fs := LSM6DSL_GY_FS_2000_DPS;
     fifo_enable := 0 |}.

(** A gyroscope full-scale code that is in no case of the switch. *)
Definition cfg_unlisted_gyro : LSM6DSL_Config_t :=
  {| accel_odr := LSM6DSL_XL_ODR_104_HZ; accel_fs := LSM6DSL_XL_FS_2G;
     gyro_odr := LSM6DSL_GY_ODR_104_HZ; gyro_fs := 0x06;
     fifo_enable := 0 |}.

(** The world when the task has just entered its loop. *)
Definition task_start (env : Env) : TaskLocals * World :=
  SensorAcqTask_entry env World_reset.

(** The same, with ten samples waiting in the queue. *)
Definition world_queue_full : World :=
  with_rtos (fun k =>
    {| tick := tick k; critical_nesting := critical_nesting k;
       i2c_calls := i2c_calls k; rand_calls := rand_calls k;
       send_calls := send_calls k;
       xSensorDataQueue := repeat SensorData_zero 10;
       trace := trace k |}) (snd (task_start env_stalled_consumer)).

(** Locals of the task after two failed cycles in a row. *)
Definition locals_two_failures : TaskLocals :=
  {| xLastWakeTime := 0; sensor_data := SensorData_zero;
     status := HAL_ERROR; retry_count := 2 |}.

(** Statistics after some activity. *)
Definition world_with_stats : World :=
  with_acq (set_stats (fun _ =>
    {| total_samples := 250; error_count := 4; last_sample_time := 2500;
       sample_rate := F32.of_Z 100; state := SENSOR_ACQ_RUNNING |}))
    World_reset.

(** ** Vocabulary of the further properties *)

(** What a register transaction returns to its caller: the HAL status when
    the bus mutex was obtained, [HAL_TIMEOUT] when it was not. *)
Definition reply_status (r : BusReply) : HAL_StatusTypeDef :=
  if lock_taken r then hal_status r else HAL_TIMEOUT.

(** The status register says that accelerometer or gyroscope data wait. *)
Definition data_waiting (status_reg : Z) : bool :=
  negb (Z.land status_reg (Z.lor LSM6DSL_STATUS_XLDA LSM6DSL_STATUS_GDA) =? 0).

(** The register transactions made from [w] to [w']. *)
Definition transactions (w w' : World) (n : nat) : Prop :=
  i2c_calls (rtos w') = (n + i2c_calls (rtos w))%nat.

(** The bytes of the writes to register [reg] that went through, oldest
    first, and the bytes the register was last written with. *)
Definition register_writes (reg : Z) (evs : list Event) : list (list Z) :=
  flat_map (fun e =>
              match e with
              | EvWriteReg r bytes HAL_OK => if r =? reg then [bytes] else []
              | _ => []
              end) evs.

Definition last_written (reg : Z) (w : World) : list Z :=
  last (register_writes reg (events_of w)) [].

(** The configuration [SensorAcq_Init] installs. *)
Definition default_config : LSM6DSL_Config_t :=
  {| accel_odr := LSM6DSL_XL_ODR_104_HZ; accel_fs := LSM6DSL_XL_FS_2G;
     gyro_odr := LSM6DSL_GY_ODR_104_HZ; gyro_fs := LSM6DSL_GY_FS_250_DPS;
     fifo_enable := 0 |}.

(** The world in which [SensorAcq_Init] calls the driver: statistics
    cleared, state [SENSOR_ACQ_INIT], configuration installed. *)
Definition init_prepared (w : World) : World :=
  with_acq (set_config default_config)
    (with_acq (set_stats (set_state SENSOR_ACQ_INIT))
       (with_acq (set_stats (fun _ => SensorAcqStats_zero)) w)).

(** What waits in the queue when the next [xQueueSend] looks at it. *)
Definition queue_left (env : Env) (w : World) : list SensorData_t :=
  skipn (consumer_takes env (send_calls (rtos w))) (xSensorDataQueue (rtos w)).

(** [n] calls of [SensorAcq_UpdateStats], the [i]-th at tick
    [start + i * period]. *)
Fixpoint update_every (period start : Z) (i : Z) (n : nat) : M unit :=
  match n with
  | O => ret tt
  | S n' =>
      SensorAcq_UpdateStats (u32 (start + i * period)) ;;
      update_every period start (i + 1) n'
  end.

(** The sensor delivers [burst] whenever asked; the consumer keeps up. *)
Definition env_steady (burst : list Z) : Env :=
  {| i2c_reply := fun n =>
       if Nat.even n then reply_with HAL_OK [0x03] else reply_with HAL_OK burst;
     rand_value := fun _ => 7;
     consumer_takes := fun _ => 1%nat |}.

(** The status read goes through and announces data, the burst fails. *)
Definition env_burst_fails : Env :=
  {| i2c_reply := fun n =>
       match n with
       | O => reply_with HAL_OK [0x03]
       | _ => reply_with HAL_BUSY []
       end;
     rand_value := fun _ => 7;
     consumer_takes := fun _ => 0%nat |}.

(** The identity read and the soft reset go through, the write of
    [CTRL1_XL] times out on the bus mutex. *)
Definition env_third_times_out : Env :=
  {| i2c_reply := fun n =>
       match n with
       | O | S O => reply_with HAL_OK [0x6A]
       | _ => {| lock_taken := false; hal_status := HAL_OK; rx_bytes := [];
                 elapsed := 100 |}
       end;
     rand_value := fun _ => 0;
     consumer_takes := fun _ => 0%nat |}.

(** A sample a caller holds before a read. *)
Definition stale_data : LSM6DSL_Data_t :=
  {| imu_accel_x := F32.of_Z 1; imu_accel_y := F32.of_Z 2;
     imu_accel_z := F32.of_Z 3;
     imu_gyro_x := F32.of_Z 4; imu_gyro_y := F32.of_Z 5;
     imu_gyro_z := F32.of_Z 6;
     imu_temperature := F32.of_Z 20; imu_timestamp := 42; data_ready := 0 |}.

(** The task stopped by [SensorAcq_Enable(0)] on a healthy bus. *)
Definition world_stopped : World :=
  snd (SensorAcq_Enable 0 env_ok (snd (task_start env_ok))).

(** The enabled task with some statistics behind it. *)
Definition world_running : World :=
  with_acq (set_enabled 1) world_with_stats.

(** * Frame rules *)

#[export] Instance quiet_frame (P : Event -> Prop) : Frame (quiet P).
Proof.
  split; unfold quiet.
  - intros w. repeat split; auto. exists []. rewrite app_nil_r. auto.
  - intros w1 w2 w3 (A1 & Q1 & S1 & C1 & e1 & T1 & F1)
                    (A2 & Q2 & S2 & C2 & e2 & T2 & F2).
    repeat split; try congruence.
    exists (e1 ++ e2). rewrite T2, T1, app_assoc.
    split; [reflexivity | apply Forall_app; auto].
Qed.

#[export] Instance same_drv_frame : Frame same_drv.
Proof. split; unfold same_drv; congruence. Qed.

Section KeepsRules.
Context (R : World -> World -> Prop) `{Frame R}.

Lemma keeps_ret {A : Type} (a : A) : keeps R (ret a).
Proof. intros env w. apply frame_refl. Qed.

Lemma keeps_bind {A B : Type} (c : M A) (k : A -> M B) :
  keeps R c -> (forall a, keeps R (k a)) -> keeps R (bind c k).
Proof.
  intros Hc Hk env w. unfold bind.
  specialize (Hc env w). destruct (c env w) as [a w1]. cbn in Hc.
  eapply frame_trans; [exact Hc | apply Hk].
Qed.

Lemma keeps_get : keeps R get.
Proof. intros env w. apply frame_refl. Qed.

Lemma keeps_tick : keeps R xTaskGetTickCount.
Proof. intros env w. apply frame_refl. Qed.

(** What follows the first call keeps [R] from the world that call left. *)
Lemma keeps_after {A B : Type} (c : M A) (k : A -> M B) env w :
  (forall a, keeps R (k a)) -> R (snd (c env w)) (snd (bind c k env w)).
Proof.
  intros Hk. unfold bind. destruct (c env w) as [a w1]. apply Hk.
Qed.

End KeepsRules.

Ltac keeps_step :=
  match goal with
  | |- keeps _ (bind _ _) => apply keeps_bind; [ typeclasses eauto | | intros ]
  | |- keeps _ (ret _) => apply keeps_ret; typeclasses eauto
  | |- keeps _ get => apply keeps_get; typeclasses eauto
  | |- keeps _ xTaskGetTickCount => apply keeps_tick; typeclasses eauto
  | |- keeps _ (if ?b then _ else _) => destruct b
  | |- keeps _ (match ?x with _ => _ end) => destruct x
  | |- keeps _ (let _ := _ in _) => cbv zeta
  end.

Create HintDb frames.

Ltac frame := repeat keeps_step; auto with frames.

(** The bindings of the monad, unfolded one call at a time. *)
Lemma bind_run {A B : Type} (c : M A) (k : A -> M B) env w :
  bind c k env w = k (fst (c env w)) env (snd (c env w)).
Proof. unfold bind. destruct (c env w); reflexivity. Qed.

Lemma quiet_impl (P Q : Event -> Prop) w w' :
  (forall e, P e -> Q e) -> quiet P w w' -> quiet Q w w'.
Proof.
  intros PQ (Ac & Qu & S & C & evs & T & F).
  repeat split; auto. exists evs. split; auto.
  eapply Forall_impl; eauto.
Qed.

Lemma quiet_weaken (P Q : Event -> Prop) {A : Type} (c : M A) :
  (forall e, P e -> Q e) -> keeps (quiet P) c -> keeps (quiet Q) c.
Proof. intros PQ Hc env w. eapply quiet_impl; eauto. Qed.

(** ** Hoare rules *)

Lemma hoare_ret {A : Type} (P : World -> Prop) (a : A) (Q : A -> World -> Prop) :
  (forall w, P w -> Q a w) -> hoare P (ret a) Q.
Proof. intros H env w Pw. apply H, Pw. Qed.

Lemma hoare_bind {A B : Type} (P : World -> Prop) (Q1 : A -> World -> Prop)
    (Q2 : B -> World -> Prop) (c : M A) (k : A -> M B) :
  hoare P c Q1 -> (forall a, hoare (Q1 a) (k a) Q2) -> hoare P (bind c k) Q2.
Proof.
  intros Hc Hk env w Pw. unfold bind.
  specialize (Hc env w Pw). destruct (c env w) as [a w1]. apply Hk, Hc.
Qed.

(** A call that keeps the invariant [I], then a continuation under [I]. *)
Lemma hoare_bind_inv {A B : Type} (I : World -> Prop)
    (Q : B -> World -> Prop) (c : M A) (k : A -> M B) :
  hoare I c (fun _ => I) -> (forall a, hoare I (k a) Q) -> hoare I (bind c k) Q.
Proof. intros Hc Hk. eapply hoare_bind; [exact Hc | exact Hk]. Qed.

Lemma hoare_keeps {A : Type} (R : World -> World -> Prop) `{Frame R}
    (c : M A) (w0 : World) :
  keeps R c -> hoare (R w0) c (fun _ => R w0).
Proof. intros Hc env w Rw. eapply frame_trans; [exact Rw | apply Hc]. Qed.

(** ** Primitives *)

Lemma next_reply_quiet P : keeps (quiet P) next_reply.
Proof.
  intros env w. repeat split. exists []. cbn. rewrite app_nil_r. auto.
Qed.

Lemma rand_quiet P : keeps (quiet P) rand.
Proof.
  intros env w. repeat split. exists []. cbn. rewrite app_nil_r. auto.
Qed.

Lemma log_event_quiet (P : Event -> Prop) e : P e -> keeps (quiet P) (log_event e).
Proof.
  intros Pe env w. repeat split. exists [e]. cbn. auto.
Qed.

Lemma vTaskDelay_quiet (P : Event -> Prop) n :
  P (EvDelay n) -> keeps (quiet P) (vTaskDelay n).
Proof.
  intros Pe env w. repeat split. exists [EvDelay n]. cbn. auto.
Qed.

#[export] Hint Resolve next_reply_quiet rand_quiet : frames.

Lemma ReadReg_quiet (P : Event -> Prop) reg data len :
  (forall st, P (EvReadReg reg len st)) ->
  keeps (quiet P) (LSM6DSL_ReadReg reg data len).
Proof.
  intros HP. unfold LSM6DSL_ReadReg. frame; apply log_event_quiet; apply HP.
Qed.

Lemma WriteReg_quiet (P : Event -> Prop) reg data len :
  (forall st, P (EvWriteReg reg (firstn len data) st)) ->
  keeps (quiet P) (LSM6DSL_WriteReg reg data len).
Proof.
  intros HP. unfold LSM6DSL_WriteReg. frame; apply log_event_quiet; apply HP.
Qed.

Lemma next_reply_drv : keeps same_drv next_reply.
Proof. intros env w. reflexivity. Qed.

Lemma log_event_drv e : keeps same_drv (log_event e).
Proof. intros env w. reflexivity. Qed.

Lemma vTaskDelay_drv n : keeps same_drv (vTaskDelay n).
Proof. intros env w. reflexivity. Qed.

#[export] Hint Resolve next_reply_drv log_event_drv vTaskDelay_drv : frames.

Lemma ReadReg_drv reg data len : keeps same_drv (LSM6DSL_ReadReg reg data len).
Proof. unfold LSM6DSL_ReadReg. frame. Qed.

Lemma WriteReg_drv reg data len : keeps same_drv (LSM6DSL_WriteReg reg data len).
Proof. unfold LSM6DSL_WriteReg. frame. Qed.

#[export] Hint Resolve ReadReg_drv WriteReg_drv : frames.

(** ** [LSM6DSL_Enable] *)

Lemma Enable_quiet on : keeps (quiet mode_write) (LSM6DSL_Enable on).
Proof.
  unfold LSM6DSL_Enable.
  frame; apply WriteReg_quiet; intros st; cbn; unfold mode_write; eauto.
Qed.

Lemma Enable_drv on : keeps same_drv (LSM6DSL_Enable on).
Proof. unfold LSM6DSL_Enable. frame. Qed.

Lemma enable_seq_quiet ons : keeps (quiet mode_write) (enable_seq ons).
Proof.
  induction ons as [|on rest IH]; cbn [enable_seq]; frame.
  apply Enable_quiet.
Qed.

Lemma enable_seq_drv ons : keeps same_drv (enable_seq ons).
Proof.
  induction ons as [|on rest IH]; cbn [enable_seq]; frame.
  apply Enable_drv.
Qed.

(** C8. Whatever the sequence of [LSM6DSL_Enable] calls and whatever the
    bus answers, the cached accelerometer and gyroscope sensitivities are
    after the sequence what they were before it, and every event of the
    sequence is a one-byte write to [CTRL1_XL] or to [CTRL2_G]; in
    particular for enable, disable, enable. *)
Theorem enable_keeps_sensitivity :
  (forall ons env w,
     let w' := snd (enable_seq ons env w) in
     accel_sensitivity (drv w') = accel_sensitivity (drv w) /\
     gyro_sensitivity (drv w') = gyro_sensitivity (drv w) /\
     exists evs, events_of w' = events_of w ++ evs /\ Forall mode_write evs) /\
  (forall env w,
     drv (snd (enable_seq [1; 0; 1] env w)) = drv w).
Proof.
  split.
  - intros ons env w w'.
    pose proof (enable_seq_drv ons env w) as D.
    destruct (enable_seq_quiet ons env w) as (_ & _ & _ & _ & T).
    fold w' in D, T. unfold same_drv in D. rewrite D. auto.
  - intros env w. apply (enable_seq_drv [1; 0; 1] env w).
Qed.

(** ** [LSM6DSL_Init] *)

Ltac hoare_step :=
  match goal with
  | |- hoare _ (bind _ _) _ => apply hoare_bind_inv; [ | intros ]
  | |- hoare _ (ret _) _ => apply hoare_ret
  | |- hoare _ (if ?b then _ else _) _ => destruct b eqn:?
  | |- hoare _ (match ?x with _ => _ end) _ => destruct x
  | |- hoare _ (let _ := _ in _) _ => cbv zeta
  end.

Lemma init_attempts_app w w' evs :
  events_of w' = events_of w ++ evs ->
  init_attempts w' =
  (init_attempts w + List.length (filter is_init_attempt evs))%nat.
Proof.
  unfold init_attempts. intros ->. now rewrite filter_app, length_app.
Qed.

Lemma filter_none (P : Event -> Prop) (evs : list Event) :
  (forall e, P e -> is_init_attempt e = false) ->
  Forall P evs -> filter is_init_attempt evs = [].
Proof.
  intros HP F. induction F as [|e l Pe _ IH]; cbn; [reflexivity|].
  now rewrite (HP e Pe).
Qed.

(** Events that are no read of the identity register add no attempt. *)
Lemma quiet_no_attempt (P : Event -> Prop) w w' :
  (forall e, P e -> is_init_attempt e = false) ->
  quiet P w w' -> init_attempts w' = init_attempts w.
Proof.
  intros HP (_ & _ & _ & _ & evs & T & F).
  rewrite (init_attempts_app _ _ _ T), (filter_none P evs HP F). cbn. lia.
Qed.

Lemma write_or_delay_no_attempt e :
  write_or_delay e -> is_init_attempt e = false.
Proof. intros [(reg & b & st & ->) | (n & ->)]; reflexivity. Qed.

Lemma UpdateSensitivity_quiet P accel_fs gyro_fs :
  keeps (quiet P) (LSM6DSL_UpdateSensitivity accel_fs gyro_fs).
Proof.
  assert (Hs : forall x, keeps (quiet P) (set_accel_sensitivity x)).
  { intros x env w. repeat split. exists []. cbn. now rewrite app_nil_r. }
  assert (Hg : forall x, keeps (quiet P) (set_gyro_sensitivity x)).
  { intros x env w. repeat split. exists []. cbn. now rewrite app_nil_r. }
  unfold LSM6DSL_UpdateSensitivity. frame.
Qed.

Lemma ReadWhoAmI_run who env w :
  let r := first_reply env w in
  let st := if lock_taken r then hal_status r else HAL_TIMEOUT in
  let res := LSM6DSL_ReadWhoAmI who env w in
  fst res = (st, if lock_taken r then u8 (nth 0 (rx_bytes r) who) else who) /\
  events_of (snd res) = events_of w ++ [EvReadReg LSM6DSL_WHO_AM_I 1 st] /\
  quiet (fun e => e = EvReadReg LSM6DSL_WHO_AM_I 1 st) w (snd res) /\
  drv (snd res) = drv w.
Proof.
  unfold first_reply, LSM6DSL_ReadWhoAmI, LSM6DSL_ReadReg, next_reply,
    log_event, modify, bind, ret. cbn.
  destruct (lock_taken _); cbn; repeat split; eexists; split;
    try reflexivity; auto.
Qed.

(** After its read of the identity register, [LSM6DSL_Init] only writes
    registers and waits. *)
Lemma Init_after_identity config env w :
  quiet write_or_delay (snd (LSM6DSL_ReadWhoAmI 0 env w))
                       (snd (LSM6DSL_Init config env w)).
Proof.
  unfold LSM6DSL_Init. cbv zeta. apply keeps_after; try typeclasses eauto.
  intros [st who]. unfold LSM6DSL_SoftReset.
  frame;
    try (apply WriteReg_quiet; intros s; left; eauto);
    try (apply vTaskDelay_quiet; right; unfold is_delay; eauto);
    apply UpdateSensitivity_quiet.
Qed.

(** Each call of [LSM6DSL_Init] is one initialisation attempt, and it
    leaves the acquisition module's variables and the queue alone. *)
Lemma LSM6DSL_Init_attempt config env w :
  let w' := snd (LSM6DSL_Init config env w) in
  init_attempts w' = S (init_attempts w) /\ quiet (fun _ => True) w w'.
Proof.
  intros w'.
  destruct (ReadWhoAmI_run 0 env w) as (_ & T & Q1 & _).
  pose proof (Init_after_identity config env w) as Q2. fold w' in Q2.
  split.
  - rewrite (quiet_no_attempt _ _ _ write_or_delay_no_attempt Q2).
    rewrite (init_attempts_app _ _ _ T). cbn. lia.
  - eapply frame_trans; eapply quiet_impl; eauto.
Qed.

Lemma ReadWhoAmI_drv who : keeps same_drv (LSM6DSL_ReadWhoAmI who).
Proof. unfold LSM6DSL_ReadWhoAmI. frame. Qed.

Lemma SoftReset_drv : keeps same_drv LSM6DSL_SoftReset.
Proof. unfold LSM6DSL_SoftReset. frame. Qed.

#[export] Hint Resolve ReadWhoAmI_drv SoftReset_drv : frames.

(** [LSM6DSL_UpdateSensitivity] is the last step of [LSM6DSL_Init] and the
    only one that moves the sensitivities: up to it the invariant holds. *)
Ltac init_steps inv :=
  unfold LSM6DSL_Init; cbv zeta;
  repeat match goal with
         | |- hoare _ (bind (LSM6DSL_UpdateSensitivity _ _) _) _ => fail 1
         | |- _ => hoare_step
         end;
  try solve [inv | intros; intuition congruence].

Lemma Init_error_same_drv config w0 :
  hoare (same_drv w0) (LSM6DSL_Init config)
        (fun st w => st <> HAL_OK -> same_drv w0 w).
Proof.
  init_steps ltac:(apply hoare_keeps; [typeclasses eauto | auto with frames]).
  intros env w _. unfold bind, ret.
  destruct (LSM6DSL_UpdateSensitivity _ _ env w). cbn. congruence.
Qed.

(** Case analysis on the answers of the bus, one transaction at a time. *)
Ltac bus_cases :=
  repeat (match goal with
          | |- context [lock_taken ?r] => destruct (lock_taken r) eqn:?
          | |- context [hal_status ?r] => destruct (hal_status r) eqn:?
          | |- context [negb (?a =? ?b)] => destruct (Z.eqb_spec a b)
          end; cbn [is_ok negb orb fst snd]).

(** [LSM6DSL_Init] returns [HAL_OK] only when the identity register held
    the device identity and each of its five register transactions went
    through. *)
Lemma Init_ok_replies config env w :
  fst (LSM6DSL_Init config env w) = HAL_OK ->
  reply_byte (reply_at env w 0) 0 = LSM6DSL_WHO_AM_I_VALUE /\
  forall i, (i < 5)%nat -> reply_ok (reply_at env w i).
Proof.
  unfold LSM6DSL_Init, LSM6DSL_ReadWhoAmI, LSM6DSL_SoftReset,
    LSM6DSL_ReadReg, LSM6DSL_WriteReg, vTaskDelay, next_reply, log_event,
    modify, bind, ret, reply_at, reply_ok, reply_byte.
  cbn. bus_cases; try discriminate.
  intros _. split; [assumption|].
  intros i Hi. do 5 (destruct i as [|i]; [split; assumption|]). lia.
Qed.

(** C9. When [LSM6DSL_Init] returns anything but [HAL_OK] (identity read
    failed or mismatched, soft reset failed, a mode or control register
    write failed), the cached accelerometer and gyroscope sensitivities
    are what they were before the call; and when the call did move them,
    the identity register held the device identity and all five register
    transactions of the sequence had gone through. *)
Theorem init_error_keeps_sensitivity config env w :
  let r := LSM6DSL_Init config env w in
  (fst r <> HAL_OK ->
   accel_sensitivity (drv (snd r)) = accel_sensitivity (drv w) /\
   gyro_sensitivity (drv (snd r)) = gyro_sensitivity (drv w)) /\
  (drv (snd r) <> drv w ->
   fst r = HAL_OK /\
   reply_byte (reply_at env w 0) 0 = LSM6DSL_WHO_AM_I_VALUE /\
   forall i, (i < 5)%nat -> reply_ok (reply_at env w i)).
Proof.
  intros r.
  assert (Herr : fst r <> HAL_OK -> drv (snd r) = drv w).
  { intros H. exact (Init_error_same_drv config w env w (frame_refl w) H). }
  split.
  - intros H. rewrite (Herr H). split; reflexivity.
  - intros Hmoved.
    assert (Hok : fst r = HAL_OK).
    { destruct (fst r) eqn:E; [reflexivity | exfalso; apply Hmoved, Herr; discriminate ..]. }
    split; [exact Hok | exact (Init_ok_replies config env w Hok)].
Qed.

Lemma UpdateSensitivity_table accel_fs gyro_fs env w :
  let d := drv (snd (LSM6DSL_UpdateSensitivity accel_fs gyro_fs env w)) in
  accel_table_holds accel_fs (accel_sensitivity d) /\
  gyro_table_holds gyro_fs (gyro_sensitivity d) /\
  (~ gyro_code_listed gyro_fs -> gyro_sensitivity d = F32.lit 875 100).
Proof.
  unfold LSM6DSL_UpdateSensitivity, set_accel_sensitivity,
    set_gyro_sensitivity, modify, bind, accel_table_holds, gyro_table_holds,
    gyro_code_listed.
  repeat match goal with
         | |- context [if ?a =? ?b then _ else _] => destruct (Z.eqb_spec a b)
         end;
    cbn [snd drv with_drv accel_sensitivity gyro_sensitivity In] in *;
    unfold LSM6DSL_XL_FS_2G, LSM6DSL_XL_FS_4G, LSM6DSL_XL_FS_8G,
      LSM6DSL_XL_FS_16G, LSM6DSL_GY_FS_125_DPS, LSM6DSL_GY_FS_250_DPS,
      LSM6DSL_GY_FS_500_DPS, LSM6DSL_GY_FS_1000_DPS, LSM6DSL_GY_FS_2000_DPS in *;
    repeat split; intros Hc; first [reflexivity | exfalso; lia].
Qed.

Lemma Init_ok_table config :
  hoare (fun _ => True) (LSM6DSL_Init config)
        (fun st w =>
           st = HAL_OK ->
           accel_table_holds (accel_fs config) (accel_sensitivity (drv w)) /\
           gyro_table_holds (gyro_fs config) (gyro_sensitivity (drv w)) /\
           (~ gyro_code_listed (gyro_fs config) ->
            gyro_sensitivity (drv w) = F32.lit 875 100)).
Proof.
  init_steps ltac:(intros env w _; exact I).
  all: try (intros w _ Hst; subst; discriminate).
  intros env w _ _. unfold bind, ret.
  pose proof (UpdateSensitivity_table (accel_fs config) (gyro_fs config) env w) as T.
  destruct (LSM6DSL_UpdateSensitivity _ _ env w). exact T.
Qed.

(** C1 (amended). When [LSM6DSL_Init] succeeds, the cached sensitivities
    are those of the documented tables for the full-scale codes of the
    configuration (accelerometer 2g, 4g, 8g, 16g: 0.061, 0.122, 0.244,
    0.488 mg/LSB; gyroscope 125, 250, 500, 1000, 2000 dps: 4.375, 8.75,
    17.50, 35.0, 70.0 mdps/LSB); an accelerometer code outside the table
    yields the 2g coefficient 0.061, and a gyroscope code outside the
    table yields the 250 dps coefficient 8.75. *)
Theorem init_selects_sensitivity config env w :
  fst (LSM6DSL_Init config env w) = HAL_OK ->
  let d := drv (snd (LSM6DSL_Init config env w)) in
  accel_table_holds (accel_fs config) (accel_sensitivity d) /\
  gyro_table_holds (gyro_fs config) (gyro_sensitivity d) /\
  (~ gyro_code_listed (gyro_fs config) ->
   gyro_sensitivity d = F32.lit 875 100).
Proof.
  intros Hok. exact (Init_ok_table config env w I Hok).
Qed.

(** The binary32 numbers the code stores are the table's decimals: the
    gyroscope coefficients exactly, the accelerometer coefficients to
    within half a unit in the last place. *)
Lemma table_literals :
  (F32.to_Q (F32.lit 4375 1000) == 4375 # 1000)%Q /\
  (F32.to_Q (F32.lit 875 100) == 875 # 100)%Q /\
  (F32.to_Q (F32.lit 1750 100) == 1750 # 100)%Q /\
  (F32.to_Q (F32.lit 350 10) == 35)%Q /\
  (F32.to_Q (F32.lit 700 10) == 70)%Q /\
  close_to (F32.lit 61 1000) (61 # 1000) 29 = true /\
  close_to (F32.lit 122 1000) (122 # 1000) 28 = true /\
  close_to (F32.lit 244 1000) (244 # 1000) 27 = true /\
  close_to (F32.lit 488 1000) (488 # 1000) 26 = true.
Proof. repeat split; vm_compute; reflexivity. Qed.

Lemma init_selects_sensitivity_witness :
  fst (LSM6DSL_Init cfg_8g_2000dps env_ok World_reset) = HAL_OK /\
  accel_sensitivity (drv (snd (LSM6DSL_Init cfg_8g_2000dps env_ok World_reset)))
    = F32.lit 244 1000 /\
  gyro_sensitivity (drv (snd (LSM6DSL_Init cfg_8g_2000dps env_ok World_reset)))
    = F32.lit 700 10.
Proof.
  assert (Hok : fst (LSM6DSL_Init cfg_8g_2000dps env_ok World_reset) = HAL_OK)
    by reflexivity.
  destruct (init_selects_sensitivity cfg_8g_2000dps env_ok World_reset Hok)
    as ((_ & _ & H8 & _) & (_ & _ & _ & _ & H2000) & _).
  split; [exact Hok | split; [apply H8 | apply H2000]; reflexivity].
Defined.

(** C1, as stated, fails: [0x06] is no gyroscope code of the table, the
    initialisation succeeds, and the cached gyroscope sensitivity is the
    250 dps coefficient 8.75, not the 125 dps coefficient 4.375. *)
Lemma unlisted_gyro_code_counterexample :
  fst (LSM6DSL_Init cfg_unlisted_gyro env_ok World_reset) = HAL_OK /\
  ~ gyro_code_listed (gyro_fs cfg_unlisted_gyro) /\
  gyro_sensitivity (drv (snd (LSM6DSL_Init cfg_unlisted_gyro env_ok World_reset)))
    = F32.lit 875 100 /\
  gyro_sensitivity (drv (snd (LSM6DSL_Init cfg_unlisted_gyro env_ok World_reset)))
    <> F32.lit 4375 1000.
Proof.
  split; [reflexivity | split; [| split]].
  - unfold gyro_code_listed. cbn. intuition discriminate.
  - reflexivity.
  - vm_compute. discriminate.
Qed.

Lemma init_error_keeps_sensitivity_witness :
  let w := snd (LSM6DSL_Init cfg_8g_2000dps env_ok World_reset) in
  fst (LSM6DSL_Init cfg_unlisted_gyro env_dead w) <> HAL_OK /\
  accel_sensitivity (drv (snd (LSM6DSL_Init cfg_unlisted_gyro env_dead w)))
    = F32.lit 244 1000 /\
  gyro_sensitivity (drv (snd (LSM6DSL_Init cfg_unlisted_gyro env_dead w)))
    = F32.lit 700 10 /\
  reply_ok (reply_at env_ok World_reset 4).
Proof.
  intros w.
  assert (Herr : fst (LSM6DSL_Init cfg_unlisted_gyro env_dead w) <> HAL_OK)
    by (vm_compute; discriminate).
  destruct (init_error_keeps_sensitivity cfg_unlisted_gyro env_dead w)
    as [Hkeep _].
  destruct (Hkeep Herr) as [Ha Hg].
  assert (Hmoved : drv w <> drv World_reset) by (vm_compute; discriminate).
  destruct (init_error_keeps_sensitivity cfg_8g_2000dps env_ok World_reset)
    as [_ Hall].
  destruct (Hall Hmoved) as (_ & _ & Hr).
  split; [exact Herr | split; [| split]].
  - rewrite Ha. reflexivity.
  - rewrite Hg. reflexivity.
  - apply Hr. lia.
Defined.

(** Unless the identity register is read successfully and holds the
    device identity, [LSM6DSL_Init] stops after that read with
    [HAL_ERROR]. *)
Lemma Init_identity_gate config env w :
  ~ (reply_ok (first_reply env w) /\
     reply_byte (first_reply env w) 0 = LSM6DSL_WHO_AM_I_VALUE) ->
  LSM6DSL_Init config env w = (HAL_ERROR, snd (LSM6DSL_ReadWhoAmI 0 env w)).
Proof.
  intros Hbad. unfold LSM6DSL_Init. cbv zeta. rewrite bind_run.
  destruct (ReadWhoAmI_run 0 env w) as (E & _).
  rewrite E. unfold reply_ok, reply_byte in Hbad.
  destruct (lock_taken (first_reply env w)); cbn [is_ok negb orb];
    [destruct (hal_status (first_reply env w)) |]; try reflexivity.
  cbn [is_ok negb orb].
  destruct (Z.eqb_spec (u8 (nth 0 (rx_bytes (first_reply env w)) 0))
                       LSM6DSL_WHO_AM_I_VALUE) as [Heq | Hne];
    [exfalso; apply Hbad; auto | reflexivity].
Qed.

(** C6 (amended). When the identity register is read successfully but
    does not hold [0x6A], [LSM6DSL_Init] returns [HAL_ERROR] after that
    single read, with nothing written and the sensitivities untouched;
    [HAL_ERROR] is also what it returns whenever the read of the identity
    register itself fails, so the status returned does not tell a wrong
    device from a bus failure. *)
Theorem init_rejects_wrong_identity config env w :
  reply_ok (first_reply env w) ->
  reply_byte (first_reply env w) 0 <> LSM6DSL_WHO_AM_I_VALUE ->
  let r := LSM6DSL_Init config env w in
  fst r = HAL_ERROR /\
  events_of (snd r) = events_of w ++ [EvReadReg LSM6DSL_WHO_AM_I 1 HAL_OK] /\
  drv (snd r) = drv w /\
  (forall env' w',
     ~ reply_ok (first_reply env' w') ->
     fst (LSM6DSL_Init config env' w') = fst r).
Proof.
  intros Hok Hne r. subst r.
  rewrite Init_identity_gate by tauto.
  destruct (ReadWhoAmI_run 0 env w) as (_ & T & _ & D).
  destruct Hok as [Hl Hs]. rewrite Hl, Hs in T.
  repeat split; auto.
  intros env' w' Hbad. rewrite Init_identity_gate by tauto. reflexivity.
Qed.

Lemma init_rejects_wrong_identity_witness :
  fst (LSM6DSL_Init cfg_8g_2000dps env_other_device World_reset) = HAL_ERROR /\
  fst (LSM6DSL_Init cfg_8g_2000dps env_bus_busy World_reset) = HAL_ERROR.
Proof.
  assert (Hok : reply_ok (first_reply env_other_device World_reset))
    by (split; reflexivity).
  assert (Hne : reply_byte (first_reply env_other_device World_reset) 0
                <> LSM6DSL_WHO_AM_I_VALUE) by (vm_compute; discriminate).
  destruct (init_rejects_wrong_identity cfg_8g_2000dps env_other_device
              World_reset Hok Hne) as (E & _ & _ & Hsame).
  split; [exact E |].
  rewrite <- E. apply Hsame. intros [Hl _]. discriminate Hl.
Defined.

(** C6, as stated, fails: a wrong device on a healthy bus and a failing
    bus make [LSM6DSL_Init] return the same status. *)
Lemma identity_error_not_distinct_counterexample :
  reply_ok (first_reply env_other_device World_reset) /\
  reply_byte (first_reply env_other_device World_reset) 0
    <> LSM6DSL_WHO_AM_I_VALUE /\
  hal_status (first_reply env_dead World_reset) = HAL_ERROR /\
  fst (LSM6DSL_Init cfg_8g_2000dps env_other_device World_reset) =
  fst (LSM6DSL_Init cfg_8g_2000dps env_dead World_reset).
Proof.
  repeat split; try reflexivity. vm_compute. discriminate.
Qed.

(** ** Statistics *)

(** C10. With a null pointer, [SensorAcq_GetStats] returns at once: the
    caller's side stays null, and the world (statistics, critical
    nesting and trace included) is the one it was called in.  With a
    buffer, the buffer receives the statistics and these do not move. *)
Theorem get_stats_null_is_noop env w :
  SensorAcq_GetStats None env w = (None, w) /\
  (forall buf,
     fst (SensorAcq_GetStats (Some buf) env w) = Some (stats_of w) /\
     acq (snd (SensorAcq_GetStats (Some buf) env w)) = acq w).
Proof. split; [reflexivity | intros buf; split; reflexivity]. Qed.



(** ** [LSM6DSL_ReadData] *)

(** *** Integers *)

Lemma u8_range z : 0 <= u8 z < 256.
Proof. unfold u8. apply Z.mod_pos_bound. lia. Qed.

(** Neither of the two low bits is set exactly when the mask by
    [XLDA | GDA] is zero. *)
Lemma low_bits_clear s :
  Z.land s (Z.lor LSM6DSL_STATUS_XLDA LSM6DSL_STATUS_GDA) = 0 <->
  Z.testbit s 0 = false /\ Z.testbit s 1 = false.
Proof.
  change (Z.lor LSM6DSL_STATUS_XLDA LSM6DSL_STATUS_GDA) with (Z.ones 2).
  rewrite Z.land_ones by lia. split.
  - intros H. split.
    + rewrite <- (Z.mod_pow2_bits_low s 2 0) by lia. rewrite H. apply Z.bits_0.
    + rewrite <- (Z.mod_pow2_bits_low s 2 1) by lia. rewrite H. apply Z.bits_0.
  - intros [H0 H1]. apply Z.bits_inj'. intros n Hn. rewrite Z.bits_0.
    destruct (Z.lt_ge_cases n 2) as [Hlt | Hge].
    + rewrite Z.mod_pow2_bits_low by lia.
      assert (n = 0 \/ n = 1) as [-> | ->] by lia; assumption.
    + apply Z.mod_pow2_bits_high. lia.
Qed.

Lemma low_bits_set s :
  Z.testbit s 0 = true \/ Z.testbit s 1 = true ->
  Z.land s (Z.lor LSM6DSL_STATUS_XLDA LSM6DSL_STATUS_GDA) <> 0.
Proof.
  intros Hset H0. apply low_bits_clear in H0. destruct H0 as [H0 H1].
  destruct Hset; congruence.
Qed.

(** A high byte shifted by eight and a low byte share no bit. *)
Lemma lor_bytes lo hi :
  0 <= lo < 256 -> Z.lor (Z.shiftl hi 8) lo = 256 * hi + lo.
Proof.
  intros Hlo.
  assert (Hd : Z.land (Z.shiftl hi 8) lo = 0).
  { apply Z.bits_inj'. intros n Hn. rewrite Z.land_spec, Z.bits_0.
    destruct (Z.lt_ge_cases n 8) as [Hlt | Hge].
    - rewrite Z.shiftl_spec_low by lia. reflexivity.
    - rewrite <- (Z.mod_small lo (2 ^ 8)) by (change (2 ^ 8) with 256; lia).
      rewrite Z.mod_pow2_bits_high by lia. apply andb_false_r. }
  rewrite <- Z.lxor_lor, <- Z.add_nocarry_lxor by exact Hd.
  rewrite Z.shiftl_mul_pow2 by lia. change (2 ^ 8) with 256. lia.
Qed.

(** The cast of the source reads two bytes as the specification does. *)
Lemma int16_of_bytes lo hi :
  0 <= lo < 256 -> 0 <= hi < 256 ->
  int16_cast (Z.lor (Z.shiftl hi 8) lo) = le_int16 lo hi.
Proof.
  intros Hlo Hhi. rewrite lor_bytes by exact Hlo.
  unfold int16_cast, le_int16. cbv zeta.
  rewrite Z.mod_small by lia.
  replace (256 * hi + lo) with (lo + 256 * hi) by lia. reflexivity.
Qed.

(** *** One register transaction *)

Lemma ReadReg_run reg data len env w :
  LSM6DSL_ReadReg reg data len env w =
  let r := first_reply env w in
  if lock_taken r
  then (hal_status r, fill_buffer data (rx_bytes r) len,
        bus_step env w (EvReadReg reg len (hal_status r)))
  else (HAL_TIMEOUT, data, bus_step env w (EvReadReg reg len HAL_TIMEOUT)).
Proof.
  unfold LSM6DSL_ReadReg, bus_step, first_reply, next_reply, log_event,
    modify, bind, ret. cbn.
  destruct (lock_taken _); reflexivity.
Qed.

Lemma bus_step_next env w e :
  first_reply env (bus_step env w e) = second_reply env w /\
  drv (bus_step env w e) = drv w /\
  acq (bus_step env w e) = acq w /\
  events_of (bus_step env w e) = events_of w ++ [e] /\
  tick (rtos (bus_step env w e)) = u32 (tick (rtos w) + elapsed (first_reply env w)).
Proof. repeat split. Qed.

Lemma GetStatus_ok env w :
  reply_ok (first_reply env w) ->
  LSM6DSL_GetStatus 0 env w =
  (HAL_OK, reply_byte (first_reply env w) 0,
   bus_step env w (EvReadReg LSM6DSL_STATUS_REG 1 HAL_OK)).
Proof.
  intros [L S]. unfold LSM6DSL_GetStatus. rewrite bind_run, ReadReg_run.
  cbv zeta. rewrite L, S. reflexivity.
Qed.

(** The burst buffer after a read that went through. *)
Lemma burst_axis r lo hi :
  (lo < 14)%nat -> (hi < 14)%nat ->
  raw_axis (fill_buffer (repeat 0 14) (rx_bytes r) 14) lo hi =
  le_int16 (reply_byte r lo) (reply_byte r hi).
Proof.
  intros Hlo Hhi. unfold raw_axis, reply_byte.
  assert (Hn : forall i, (i < 14)%nat ->
            nth i (fill_buffer (repeat 0 14) (rx_bytes r) 14) 0 =
            u8 (nth i (rx_bytes r) 0)).
  { intros i Hi. do 14 (destruct i as [|i]; [reflexivity|]). lia. }
  rewrite !Hn by assumption.
  apply int16_of_bytes; apply u8_range.
Qed.

(** No new data: success, and only the flag is written. *)
Lemma ReadData_idle data env w :
  reply_ok (first_reply env w) ->
  Z.land (reply_byte (first_reply env w) 0)
         (Z.lor LSM6DSL_STATUS_XLDA LSM6DSL_STATUS_GDA) = 0 ->
  LSM6DSL_ReadData data env w =
  (HAL_OK, set_data_ready 0 data,
   bus_step env w (EvReadReg LSM6DSL_STATUS_REG 1 HAL_OK)).
Proof.
  intros Hok Hbits. unfold LSM6DSL_ReadData. cbv zeta.
  rewrite bind_run, (GetStatus_ok env w Hok).
  cbn [fst snd is_ok negb]. rewrite Hbits. reflexivity.
Qed.

(** New data and a burst that goes through: the decoded sample. *)
Lemma ReadData_sample data env w :
  reply_ok (first_reply env w) ->
  Z.land (reply_byte (first_reply env w) 0)
         (Z.lor LSM6DSL_STATUS_XLDA LSM6DSL_STATUS_GDA) <> 0 ->
  reply_ok (second_reply env w) ->
  let b := reply_byte (second_reply env w) in
  let sa := accel_sensitivity (drv w) in
  let sg := gyro_sensitivity (drv w) in
  let w2 := bus_step env
              (bus_step env w (EvReadReg LSM6DSL_STATUS_REG 1 HAL_OK))
              (EvReadReg LSM6DSL_OUT_TEMP_L 14 HAL_OK) in
  LSM6DSL_ReadData data env w =
  (HAL_OK,
   {| imu_accel_x := accel_ms2 sa (le_int16 (b 8%nat) (b 9%nat));
      imu_accel_y := accel_ms2 sa (le_int16 (b 10%nat) (b 11%nat));
      imu_accel_z := accel_ms2 sa (le_int16 (b 12%nat) (b 13%nat));
      imu_gyro_x := gyro_rads sg (le_int16 (b 2%nat) (b 3%nat));
      imu_gyro_y := gyro_rads sg (le_int16 (b 4%nat) (b 5%nat));
      imu_gyro_z := gyro_rads sg (le_int16 (b 6%nat) (b 7%nat));
      imu_temperature := temp_celsius (le_int16 (b 0%nat) (b 1%nat));
      imu_timestamp := tick (rtos w2);
      data_ready := 1 |},
   w2).
Proof.
  intros Hok Hbits [L2 S2]. cbv zeta. unfold LSM6DSL_ReadData. cbv zeta.
  rewrite bind_run, (GetStatus_ok env w Hok).
  cbn [fst snd is_ok negb].
  apply Z.eqb_neq in Hbits. rewrite Hbits.
  cbn [data_ready set_data_ready Z.eqb].
  rewrite bind_run, ReadReg_run. cbv zeta.
  destruct (bus_step_next env w (EvReadReg LSM6DSL_STATUS_REG 1 HAL_OK))
    as (Hn & _). rewrite Hn, L2, S2.
  cbn [fst snd is_ok negb].
  unfold bind, get, xTaskGetTickCount, ret.
  rewrite !burst_axis by lia. reflexivity.
Qed.



(** *** Temperature *)

Lemma all_bytes_in b : 0 <= b < 256 -> In b all_bytes.
Proof.
  intros Hb. unfold all_bytes. rewrite <- (Z2Nat.id b) by lia.
  apply in_map, in_seq. lia.
Qed.

Lemma temp_exact_all :
  forallb (fun hi => forallb (fun lo => temp_exact (le_int16 lo hi)) all_bytes)
          all_bytes = true.
Proof. vm_compute. reflexivity. Qed.

(** For every pair of bytes the decoded temperature is the binary32
    number that is exactly [25 + raw / 256]. *)
Lemma temp_celsius_exact lo hi :
  0 <= lo < 256 -> 0 <= hi < 256 ->
  F32.is_finite (temp_celsius (le_int16 lo hi)) = true /\
  (F32.to_Q (temp_celsius (le_int16 lo hi)) == 25 + (le_int16 lo hi # 256))%Q.
Proof.
  intros Hlo Hhi.
  pose proof temp_exact_all as H.
  rewrite forallb_forall in H. specialize (H hi (all_bytes_in hi Hhi)).
  rewrite forallb_forall in H. specialize (H lo (all_bytes_in lo Hlo)).
  unfold temp_exact in H. apply andb_true_iff in H. destruct H as [Hf Hq].
  split; [exact Hf | apply Qeq_bool_iff, Hq].
Qed.

(** C7. When [LSM6DSL_ReadData] decodes a burst: with temperature bytes
    [0x00, 0x00] the temperature is the binary32 number 25.0; with raw
    temperature 256 it is 26.0; and for all temperature bytes it is
    exactly [25 + raw / 256], [raw] being the little-endian signed 16-bit
    number the two bytes hold. *)
Theorem temperature_decoding data env w :
  reply_ok (first_reply env w) ->
  Z.testbit (reply_byte (first_reply env w) 0) 0 = true \/
  Z.testbit (reply_byte (first_reply env w) 0) 1 = true ->
  reply_ok (second_reply env w) ->
  let b := reply_byte (second_reply env w) in
  let raw := le_int16 (b 0%nat) (b 1%nat) in
  let t := imu_temperature (snd (fst (LSM6DSL_ReadData data env w))) in
  (b 0%nat = 0 /\ b 1%nat = 0 -> t = F32.of_Z 25) /\
  (raw = 256 -> t = F32.of_Z 26) /\
  F32.is_finite t = true /\
  (F32.to_Q t == 25 + (raw # 256))%Q.
Proof.
  intros Hok Hset Hburst b raw t. apply low_bits_set in Hset.
  pose proof (ReadData_sample data env w Hok Hset Hburst) as Hs.
  cbv zeta in Hs.
  assert (Ht : t = temp_celsius raw) by (subst t; rewrite Hs; reflexivity).
  rewrite Ht. split; [| split].
  - intros [H0 H1]. subst raw. rewrite H0, H1. reflexivity.
  - intros ->. reflexivity.
  - apply temp_celsius_exact; apply u8_range.
Qed.

Lemma temperature_decoding_witness :
  imu_temperature (snd (fst (LSM6DSL_ReadData LSM6DSL_Data_zero
                          (env_sample 0x02 (repeat 0 14)) World_reset)))
    = F32.of_Z 25 /\
  imu_temperature (snd (fst (LSM6DSL_ReadData LSM6DSL_Data_zero
                          (env_sample 0x03 burst_example) World_reset)))
    = F32.of_Z 26.
Proof.
  split.
  - refine (proj1 (temperature_decoding LSM6DSL_Data_zero
                     (env_sample 0x02 (repeat 0 14)) World_reset _ _ _) _).
    + split; reflexivity.
    + right; reflexivity.
    + split; reflexivity.
    + split; reflexivity.
  - refine (proj1 (proj2 (temperature_decoding LSM6DSL_Data_zero
                     (env_sample 0x03 burst_example) World_reset _ _ _)) _).
    + split; reflexivity.
    + left; reflexivity.
    + split; reflexivity.
    + reflexivity.
Defined.

(** ** The reads of a cycle *)

Lemma GetStatus_quiet s : keeps (quiet sample_read) (LSM6DSL_GetStatus s).
Proof.
  unfold LSM6DSL_GetStatus. frame.
  apply ReadReg_quiet. intros st. exists 1%nat, st. auto.
Qed.

Lemma burst_quiet data :
  keeps (quiet sample_read) (LSM6DSL_ReadReg LSM6DSL_OUT_TEMP_L data 14).
Proof. apply ReadReg_quiet. intros st. exists 14%nat, st. auto. Qed.

#[export] Hint Resolve GetStatus_quiet burst_quiet : frames.

Lemma ReadData_quiet data : keeps (quiet sample_read) (LSM6DSL_ReadData data).
Proof. unfold LSM6DSL_ReadData. frame. Qed.

#[export] Hint Resolve ReadData_quiet : frames.

Lemma ReadIMU_quiet sd : keeps (quiet sample_read) (SensorAcq_ReadIMU sd).
Proof. unfold SensorAcq_ReadIMU. frame. Qed.

Lemma ReadPressure_quiet sd : keeps (quiet sample_read) (SensorAcq_ReadPressure sd).
Proof. unfold SensorAcq_ReadPressure. frame. Qed.

Lemma ReadHumidity_quiet sd : keeps (quiet sample_read) (SensorAcq_ReadHumidity sd).
Proof. unfold SensorAcq_ReadHumidity. frame. Qed.

#[export] Hint Resolve ReadIMU_quiet ReadPressure_quiet ReadHumidity_quiet : frames.

Lemma cycle_reads_quiet : keeps (quiet sample_read) cycle_reads.
Proof. unfold cycle_reads. frame. Qed.

Lemma vTaskDelayUntil_quiet last freq :
  keeps (quiet is_delay) (vTaskDelayUntil last freq).
Proof.
  unfold vTaskDelayUntil. frame.
  apply vTaskDelay_quiet. unfold is_delay. eauto.
Qed.

Lemma sample_read_no_attempt e : sample_read e -> is_init_attempt e = false.
Proof. intros (len & st & [-> | ->]); reflexivity. Qed.

Lemma is_delay_no_attempt e : is_delay e -> is_init_attempt e = false.
Proof. intros (n & ->); reflexivity. Qed.

(** A cycle of the enabled task: its reads, what it does with their
    outcome, and the wait for the next period. *)
Lemma cycle_enabled l env w t st sd w1 :
  ucSensorEnabled (acq w) <> 0 ->
  cycle_reads env w = (t, st, sd, w1) ->
  let co := cycle_outcome l t st sd env w1 in
  let r := SensorAcqTask_cycle l env w in
  retry_count (fst r) = retry_count (fst co) /\
  quiet sample_read w w1 /\
  quiet is_delay (snd co) (snd r).
Proof.
  intros Hen Ecr co r. subst r.
  pose proof (cycle_reads_quiet env w) as Qr. rewrite Ecr in Qr.
  unfold SensorAcqTask_cycle, bind, get. cbv beta iota.
  apply Z.eqb_neq in Hen. rewrite Hen. cbn [negb]. rewrite Ecr. fold co.
  destruct co as [l' w2].
  pose proof (vTaskDelayUntil_quiet (xLastWakeTime l') xFrequency env w2) as Qd.
  destruct (vTaskDelayUntil (xLastWakeTime l') xFrequency env w2) as [wake w3].
  repeat split; solve [apply Qr | apply Qd].
Qed.

(** ** What a cycle does with the outcome of its reads *)

(** Reads that succeeded, and a queue that is full. *)
Lemma cycle_outcome_queue_full l t sd env w :
  queue_full env w ->
  let r := cycle_outcome l t HAL_OK sd env w in
  retry_count (fst r) = 0 /\
  error_count (stats_of (snd r)) = u32 (error_count (stats_of w) + 1) /\
  state_of (snd r) = state_of w /\
  drv (snd r) = drv w /\
  events_of (snd r) =
  events_of w ++ [EvQueueSend false;
                  EvLog "Failed to send sensor data to queue"].
Proof.
  intros Hfull. unfold queue_full in Hfull. apply Nat.ltb_ge in Hfull.
  unfold cycle_outcome, xQueueSend, SensorAcq_LogError, incr_error_count,
    SensorAcq_UpdateStats, log_event, modify, bind, ret.
  cbn [is_ok]. cbv beta iota zeta. rewrite Hfull. cbn [negb].
  unfold events_of, state_of, stats_of. cbn. rewrite <- app_assoc.
  repeat split; reflexivity.
Qed.

(** Reads that failed, below the retry threshold. *)
Lemma cycle_outcome_counts l t st sd env w :
  st <> HAL_OK ->
  u8 (retry_count l + 1) < SENSOR_MAX_RETRY_COUNT ->
  let r := cycle_outcome l t st sd env w in
  retry_count (fst r) = u8 (retry_count l + 1) /\
  error_count (stats_of (snd r)) = u32 (error_count (stats_of w) + 1) /\
  state_of (snd r) = state_of w /\
  events_of (snd r) = events_of w.
Proof.
  intros Hst Hlt. unfold cycle_outcome.
  replace (is_ok st) with false by (destruct st; try reflexivity; congruence).
  cbv zeta. rewrite bind_run.
  replace (u8 (retry_count l + 1) >=? SENSOR_MAX_RETRY_COUNT) with false
    by (symmetry; rewrite Z.geb_leb; apply Z.leb_gt; exact Hlt).
  repeat split.
Qed.

(** Counting attempts in a trace that is known up to its new events. *)
Ltac attempts :=
  unfold init_attempts, events_of in *; cbn in *;
  rewrite ?filter_app, ?length_app; cbn; lia.

(** [SensorAcq_Init] is one initialisation attempt; it leaves the state
    at [SENSOR_ACQ_INIT] when the driver initialised and at
    [SENSOR_ACQ_ERROR] when it did not. *)
Lemma SensorAcq_Init_outcome env w :
  let r := SensorAcq_Init env w in
  state_of (snd r) =
    (if is_ok (fst r) then SENSOR_ACQ_INIT else SENSOR_ACQ_ERROR) /\
  init_attempts (snd r) = S (init_attempts w).
Proof.
  unfold SensorAcq_Init, set_xSensorStats_state, SensorAcq_LogError,
    log_event, modify, get, bind, ret. cbv beta iota.
  match goal with
  | |- context [LSM6DSL_Init ?c env ?w0] =>
      destruct (LSM6DSL_Init_attempt c env w0) as [Hn _];
      change (init_attempts w0) with (init_attempts w) in Hn;
      destruct (LSM6DSL_Init c env w0) as [st w1]
  end.
  cbn [snd] in Hn.
  destruct st; cbn [is_ok negb fst snd]; split; try reflexivity;
    try exact Hn; attempts.
Qed.

(** Reads that failed, at the retry threshold. *)
Lemma cycle_outcome_reinit l t st sd env w :
  st <> HAL_OK ->
  SENSOR_MAX_RETRY_COUNT <= u8 (retry_count l + 1) ->
  let w_e := snd ((incr_error_count ;;
                   SensorAcq_LogError "Max sensor read retries exceeded" ;;
                   set_xSensorStats_state SENSOR_ACQ_ERROR) env w) in
  let r := cycle_outcome l t st sd env w in
  retry_count (fst r) = 0 /\
  state_of w_e = SENSOR_ACQ_ERROR /\
  init_attempts (snd r) = S (init_attempts w) /\
  state_of (snd r) =
    (if is_ok (fst (SensorAcq_Init env w_e))
     then SENSOR_ACQ_RUNNING else SENSOR_ACQ_ERROR).
Proof.
  intros Hst Hge. unfold cycle_outcome.
  replace (is_ok st) with false by (destruct st; try reflexivity; congruence).
  cbv zeta. rewrite bind_run.
  replace (u8 (retry_count l + 1) >=? SENSOR_MAX_RETRY_COUNT) with true
    by (symmetry; rewrite Z.geb_leb; apply Z.leb_le; exact Hge).
  rewrite !bind_run.
  match goal with
  | |- context [SensorAcq_Init env ?w0] =>
      destruct (SensorAcq_Init_outcome env w0) as [Hs Hn];
      assert (Hw0 : init_attempts w0 = init_attempts w) by attempts;
      rewrite Hw0 in Hn;
      destruct (SensorAcq_Init env w0) as [ist wi]
  end.
  cbn [fst snd] in Hs, Hn |- *.
  destruct (is_ok ist); repeat split; try reflexivity; try assumption.
  attempts.
Qed.

(** ** Cycles *)

Lemma quiet_state P w w' : quiet P w w' -> state_of w' = state_of w.
Proof. intros (A & _). unfold state_of, stats_of. now rewrite A. Qed.

Lemma quiet_stats P w w' : quiet P w w' -> stats_of w' = stats_of w.
Proof. intros (A & _). unfold stats_of. now rewrite A. Qed.





(** C4. In a cycle whose reads all succeed and whose [xQueueSend] finds
    the queue full, the error count goes up by one (in 32 bits), the
    consecutive-failure counter is 0 after the cycle, the lifecycle state
    does not move, and no initialisation of the driver is attempted. *)
Theorem queue_full_is_soft l env w :
  cycle_reads_ok env w ->
  queue_full env w ->
  let r := SensorAcqTask_cycle l env w in
  error_count (stats_of (snd r)) = u32 (error_count (stats_of w) + 1) /\
  (0 <= error_count (stats_of w) < 4294967295 ->
   error_count (stats_of (snd r)) = error_count (stats_of w) + 1) /\
  retry_count (fst r) = 0 /\
  state_of (snd r) = state_of w /\
  init_attempts (snd r) = init_attempts w.
Proof.
  intros [Hen Hst] Hfull r.
  destruct (cycle_reads env w) as [[[t st] sd] w1] eqn:Ecr.
  cbn [fst snd] in Hst. subst st.
  destruct (cycle_enabled l env w t HAL_OK sd w1 Hen Ecr) as (Hr & Q1 & Q2).
  fold r in Hr, Q2.
  assert (Hfull1 : queue_full env w1).
  { unfold queue_full in *. destruct Q1 as (_ & Hq & Hs & _).
    now rewrite Hq, Hs. }
  destruct (cycle_outcome_queue_full l t sd env w1 Hfull1)
    as (C & E & S & _ & T).
  pose proof (quiet_no_attempt _ _ _ sample_read_no_attempt Q1) as N1.
  pose proof (quiet_no_attempt _ _ _ is_delay_no_attempt Q2) as N2.
  assert (Herr : error_count (stats_of (snd r)) =
                 u32 (error_count (stats_of w) + 1)).
  { rewrite (quiet_stats _ _ _ Q2), E, (quiet_stats _ _ _ Q1). reflexivity. }
  repeat split.
  - exact Herr.
  - intros Hrange. rewrite Herr. unfold u32. apply Z.mod_small. lia.
  - congruence.
  - rewrite (quiet_state _ _ _ Q2), S. apply (quiet_state _ _ _ Q1).
  - rewrite N2, (init_attempts_app _ _ _ T), N1. cbn. lia.
Qed.

Lemma queue_full_is_soft_witness :
  let r := SensorAcqTask_cycle locals_two_failures env_stalled_consumer
             world_queue_full in
  error_count (stats_of (snd r)) = 1 /\
  retry_count (fst r) = 0 /\
  state_of (snd r) = SENSOR_ACQ_RUNNING /\
  init_attempts (snd r) = 0%nat.
Proof.
  intros r.
  assert (Hok : cycle_reads_ok env_stalled_consumer world_queue_full)
    by (split; [vm_compute; discriminate | vm_compute; reflexivity]).
  assert (Hfull : queue_full env_stalled_consumer world_queue_full)
    by (vm_compute; repeat constructor).
  destruct (queue_full_is_soft locals_two_failures env_stalled_consumer
              world_queue_full Hok Hfull) as (E & _ & C & S & N).
  fold r in E, C, S, N.
  split; [rewrite E; reflexivity |].
  split; [exact C |].
  split; [rewrite S | rewrite N]; reflexivity.
Defined.

(** * Further properties of the driver *)

Lemma reply_ok_status r : reply_ok r <-> reply_status r = HAL_OK.
Proof.
  unfold reply_ok, reply_status. destruct (lock_taken r); split.
  - intros [_ H]; exact H.
  - auto.
  - intros [H _]; discriminate.
  - discriminate.
Qed.

Lemma status_not_ok st : st <> HAL_OK -> is_ok st = false.
Proof. destruct st; [congruence | reflexivity ..]. Qed.

Lemma not_ok_status r : ~ reply_ok r -> is_ok (reply_status r) = false.
Proof. intros H. apply status_not_ok. now rewrite <- reply_ok_status. Qed.

Lemma WriteReg_run reg data len env w :
  LSM6DSL_WriteReg reg data len env w =
  (reply_status (first_reply env w),
   bus_step env w (EvWriteReg reg (firstn len data)
                              (reply_status (first_reply env w)))).
Proof.
  unfold LSM6DSL_WriteReg, bus_step, first_reply, reply_status, next_reply,
    log_event, modify, bind, ret. cbn.
  destruct (lock_taken _); reflexivity.
Qed.

Lemma GetStatus_run s env w :
  LSM6DSL_GetStatus s env w =
  (reply_status (first_reply env w),
   if lock_taken (first_reply env w)
   then u8 (nth 0 (rx_bytes (first_reply env w)) s) else s,
   bus_step env w (EvReadReg LSM6DSL_STATUS_REG 1
                             (reply_status (first_reply env w)))).
Proof.
  unfold LSM6DSL_GetStatus. rewrite bind_run, ReadReg_run. cbv zeta.
  unfold reply_status. destruct (lock_taken _); reflexivity.
Qed.

(** The status read fails: its status is returned and the caller's
    sample is not touched. *)
Lemma ReadData_status_fault data env w :
  ~ reply_ok (first_reply env w) ->
  LSM6DSL_ReadData data env w =
  (reply_status (first_reply env w), data,
   bus_step env w (EvReadReg LSM6DSL_STATUS_REG 1
                             (reply_status (first_reply env w)))).
Proof.
  intros Hbad. unfold LSM6DSL_ReadData. cbv zeta.
  rewrite bind_run, GetStatus_run. cbn [fst snd].
  rewrite (not_ok_status _ Hbad). reflexivity.
Qed.

(** Data wait but the burst read fails: its status is returned, and of
    the caller's sample only the flag is written. *)
Lemma ReadData_burst_fault data env w :
  reply_ok (first_reply env w) ->
  Z.land (reply_byte (first_reply env w) 0)
         (Z.lor LSM6DSL_STATUS_XLDA LSM6DSL_STATUS_GDA) <> 0 ->
  ~ reply_ok (second_reply env w) ->
  LSM6DSL_ReadData data env w =
  (reply_status (second_reply env w), set_data_ready 1 data,
   bus_step env (bus_step env w (EvReadReg LSM6DSL_STATUS_REG 1 HAL_OK))
            (EvReadReg LSM6DSL_OUT_TEMP_L 14
                       (reply_status (second_reply env w)))).
Proof.
  intros Hok Hbits Hbad. unfold LSM6DSL_ReadData. cbv zeta.
  rewrite bind_run, (GetStatus_ok env w Hok). cbn [fst snd is_ok negb].
  apply Z.eqb_neq in Hbits. rewrite Hbits.
  cbn [data_ready set_data_ready Z.eqb].
  rewrite bind_run, ReadReg_run. cbv zeta.
  destruct (bus_step_next env w (EvReadReg LSM6DSL_STATUS_REG 1 HAL_OK))
    as (Hn & _). rewrite Hn.
  pose proof (not_ok_status _ Hbad) as Hs. unfold reply_status in Hs |- *.
  destruct (lock_taken (second_reply env w)); cbn [fst snd];
    [rewrite Hs |]; reflexivity.
Qed.

(** X1. When the read of the status register fails, [LSM6DSL_ReadData]
    returns the status of that transaction as it is ([HAL_TIMEOUT] when
    the bus mutex was not obtained), leaves every field of the caller's
    sample as it was, and has made one register transaction. *)
Theorem read_data_status_fault data env w :
  ~ reply_ok (first_reply env w) ->
  let res := LSM6DSL_ReadData data env w in
  fst res = (reply_status (first_reply env w), data) /\
  fst (fst res) <> HAL_OK /\
  transactions w (snd res) 1 /\
  events_of (snd res) =
    events_of w ++ [EvReadReg LSM6DSL_STATUS_REG 1
                              (reply_status (first_reply env w))].
Proof.
  intros Hbad res. subst res. rewrite (ReadData_status_fault data env w Hbad).
  repeat split. cbn. now rewrite <- reply_ok_status.
Qed.

Lemma read_data_status_fault_witness :
  fst (LSM6DSL_ReadData stale_data env_bus_busy World_reset)
    = (HAL_TIMEOUT, stale_data) /\
  fst (LSM6DSL_ReadData stale_data env_dead World_reset)
    = (HAL_ERROR, stale_data).
Proof.
  split.
  - refine (proj1 (read_data_status_fault stale_data env_bus_busy World_reset _)).
    intros [H _]. discriminate H.
  - refine (proj1 (read_data_status_fault stale_data env_dead World_reset _)).
    intros [_ H]. discriminate H.
Defined.

(** X2. When the status register announces data and the burst read
    fails, [LSM6DSL_ReadData] returns the status of the burst
    transaction, and the caller's sample comes back with [data_ready = 1]
    and every other field as the caller passed it: the flag is set before
    the burst is read. *)
Theorem read_data_burst_fault data env w :
  reply_ok (first_reply env w) ->
  Z.testbit (reply_byte (first_reply env w) 0) 0 = true \/
  Z.testbit (reply_byte (first_reply env w) 0) 1 = true ->
  ~ reply_ok (second_reply env w) ->
  let res := LSM6DSL_ReadData data env w in
  fst (fst res) = reply_status (second_reply env w) /\
  fst (fst res) <> HAL_OK /\
  snd (fst res) = set_data_ready 1 data /\
  transactions w (snd res) 2.
Proof.
  intros Hok Hset Hbad res. apply low_bits_set in Hset. subst res.
  rewrite (ReadData_burst_fault data env w Hok Hset Hbad).
  repeat split. cbn. now rewrite <- reply_ok_status.
Qed.

Lemma read_data_burst_fault_witness :
  fst (LSM6DSL_ReadData stale_data env_burst_fails World_reset)
    = (HAL_BUSY, set_data_ready 1 stale_data) /\
  imu_accel_x (snd (fst (LSM6DSL_ReadData stale_data env_burst_fails World_reset)))
    = F32.of_Z 1.
Proof.
  assert (Hok : reply_ok (first_reply env_burst_fails World_reset))
    by (split; reflexivity).
  assert (Hbad : ~ reply_ok (second_reply env_burst_fails World_reset))
    by (intros [_ H]; discriminate H).
  destruct (read_data_burst_fault stale_data env_burst_fails World_reset
              Hok (or_introl eq_refl) Hbad) as (Hs & _ & Hd & _).
  split.
  - rewrite (surjective_pairing (fst (LSM6DSL_ReadData _ _ _))), Hs, Hd.
    reflexivity.
  - rewrite Hd. reflexivity.
Defined.

(** X3. Whatever the bus answers, [LSM6DSL_ReadData] makes one or two
    register transactions: a read of the status register, followed at
    most by one 14-byte read from [OUT_TEMP_L]; it writes no register and
    leaves the cached sensitivities and the acquisition module's
    variables as they were. *)
Theorem read_data_only_reads data env w :
  let w' := snd (LSM6DSL_ReadData data env w) in
  drv w' = drv w /\ acq w' = acq w /\
  exists st,
    (transactions w w' 1 /\
     events_of w' = events_of w ++ [EvReadReg LSM6DSL_STATUS_REG 1 st]) \/
    (exists st2,
       transactions w w' 2 /\
       events_of w' =
         events_of w ++ [EvReadReg LSM6DSL_STATUS_REG 1 st;
                         EvReadReg LSM6DSL_OUT_TEMP_L 14 st2]).
Proof.
  intros w'. subst w'.
  destruct (reply_status (first_reply env w)) eqn:E1.
  - apply reply_ok_status in E1.
    destruct (Z.eq_dec (Z.land (reply_byte (first_reply env w) 0)
                (Z.lor LSM6DSL_STATUS_XLDA LSM6DSL_STATUS_GDA)) 0) as [Hz | Hnz].
    + rewrite (ReadData_idle data env w E1 Hz).
      repeat split. exists HAL_OK. left. repeat split.
    + destruct (reply_status (second_reply env w)) eqn:E2.
      * apply reply_ok_status in E2.
        rewrite (ReadData_sample data env w E1 Hnz E2).
        repeat split. exists HAL_OK. right. exists HAL_OK. repeat split.
        unfold events_of. cbn. now rewrite <- app_assoc.
      * assert (Hbad : ~ reply_ok (second_reply env w))
          by (rewrite reply_ok_status, E2; discriminate).
        rewrite (ReadData_burst_fault data env w E1 Hnz Hbad).
        repeat split. exists HAL_OK. right. eexists. repeat split.
        unfold events_of. cbn. now rewrite <- app_assoc.
      * assert (Hbad : ~ reply_ok (second_reply env w))
          by (rewrite reply_ok_status, E2; discriminate).
        rewrite (ReadData_burst_fault data env w E1 Hnz Hbad).
        repeat split. exists HAL_OK. right. eexists. repeat split.
        unfold events_of. cbn. now rewrite <- app_assoc.
      * assert (Hbad : ~ reply_ok (second_reply env w))
          by (rewrite reply_ok_status, E2; discriminate).
        rewrite (ReadData_burst_fault data env w E1 Hnz Hbad).
        repeat split. exists HAL_OK. right. eexists. repeat split.
        unfold events_of. cbn. now rewrite <- app_assoc.
  - assert (Hbad : ~ reply_ok (first_reply env w))
      by (rewrite reply_ok_status, E1; discriminate).
    rewrite (ReadData_status_fault data env w Hbad).
    repeat split. eexists. left. repeat split.
  - assert (Hbad : ~ reply_ok (first_reply env w))
      by (rewrite reply_ok_status, E1; discriminate).
    rewrite (ReadData_status_fault data env w Hbad).
    repeat split. eexists. left. repeat split.
  - assert (Hbad : ~ reply_ok (first_reply env w))
      by (rewrite reply_ok_status, E1; discriminate).
    rewrite (ReadData_status_fault data env w Hbad).
    repeat split. eexists. left. repeat split.
Qed.

Lemma UpdateSensitivity_rtos accel_fs gyro_fs env w :
  rtos (snd (LSM6DSL_UpdateSensitivity accel_fs gyro_fs env w)) = rtos w.
Proof.
  unfold LSM6DSL_UpdateSensitivity, set_accel_sensitivity,
    set_gyro_sensitivity, modify, bind.
  repeat match goal with
         | |- context [if ?b then _ else _] => destruct b
         end; reflexivity.
Qed.

Ltac unfold_init :=
  unfold LSM6DSL_Init, LSM6DSL_ReadWhoAmI, LSM6DSL_SoftReset,
    LSM6DSL_ReadReg, LSM6DSL_WriteReg, vTaskDelay, next_reply, log_event,
    modify, bind, ret, reply_at, reply_ok, reply_byte, reply_status,
    transactions.

(** Follow the transactions whose answers are known. *)
Ltac use_replies :=
  repeat (cbn;
          match goal with
          | H : lock_taken ?r = true |- context [lock_taken ?r] => rewrite H
          | H : hal_status ?r = HAL_OK |- context [hal_status ?r] => rewrite H
          | H : (?a =? ?b) = true |- context [?a =? ?b] => rewrite H
          end).

(** X4. Past the identity check, [LSM6DSL_Init] stops at the first
    register transaction that fails (soft reset, [CTRL1_XL], [CTRL2_G] or
    [CTRL3_C] write): it returns the status of that transaction as it is,
    makes no further transaction, and leaves the cached sensitivities as
    they were. *)
Theorem init_stops_at_first_failure config env w k :
  (1 <= k < 5)%nat ->
  reply_byte (reply_at env w 0) 0 = LSM6DSL_WHO_AM_I_VALUE ->
  (forall i, (i < k)%nat -> reply_ok (reply_at env w i)) ->
  ~ reply_ok (reply_at env w k) ->
  let r := LSM6DSL_Init config env w in
  fst r = reply_status (reply_at env w k) /\
  transactions w (snd r) (S k) /\
  drv (snd r) = drv w.
Proof.
  intros Hk Hid Hok Hbad.
  assert (H0 : reply_ok (reply_at env w 0)) by (apply Hok; lia).
  assert (H1 : (1 < k)%nat -> reply_ok (reply_at env w 1)) by (intros; apply Hok; lia).
  assert (H2 : (2 < k)%nat -> reply_ok (reply_at env w 2)) by (intros; apply Hok; lia).
  assert (H3 : (3 < k)%nat -> reply_ok (reply_at env w 3)) by (intros; apply Hok; lia).
  clear Hok. revert Hid H0 H1 H2 H3 Hbad.
  assert (Hcase : k = 1%nat \/ k = 2%nat \/ k = 3%nat \/ k = 4%nat) by lia.
  unfold_init. cbn [Nat.add].
  intros Hid [L0 S0] H1 H2 H3 Hbad.
  apply Z.eqb_eq in Hid.
  destruct Hcase as [-> | [-> | [-> | ->]]]; cbn [Nat.add] in *.
  all: repeat match goal with
              | H : (?a < ?b)%nat -> _ |- _ =>
                  first [ assert (Hlt : (a < b)%nat) by lia;
                          destruct (H Hlt) as [? ?]; clear H Hlt
                        | clear H ]
              end.
  all: use_replies; cbn; bus_cases;
       try (exfalso; apply Hbad; split; reflexivity); repeat split.
Qed.

Lemma init_stops_at_first_failure_witness :
  fst (LSM6DSL_Init cfg_8g_2000dps env_third_times_out World_reset)
    = HAL_TIMEOUT /\
  i2c_calls (rtos (snd (LSM6DSL_Init cfg_8g_2000dps env_third_times_out
                          World_reset))) = 3%nat.
Proof.
  assert (Hk : (1 <= 2 < 5)%nat) by lia.
  assert (Hid : reply_byte (reply_at env_third_times_out World_reset 0) 0
                = LSM6DSL_WHO_AM_I_VALUE) by reflexivity.
  assert (Hok : forall i, (i < 2)%nat ->
                  reply_ok (reply_at env_third_times_out World_reset i)).
  { intros i Hi. do 2 (destruct i as [|i]; [split; reflexivity|]). lia. }
  assert (Hbad : ~ reply_ok (reply_at env_third_times_out World_reset 2))
    by (intros [H _]; discriminate H).
  destruct (init_stops_at_first_failure cfg_8g_2000dps env_third_times_out
              World_reset 2 Hk Hid Hok Hbad) as (Hs & Ht & _).
  split; [rewrite Hs; reflexivity | rewrite Ht; reflexivity].
Defined.

(** The bus sequence of a successful initialisation. *)
Lemma Init_ok_run config env w :
  reply_byte (reply_at env w 0) 0 = LSM6DSL_WHO_AM_I_VALUE ->
  (forall i, (i < 5)%nat -> reply_ok (reply_at env w i)) ->
  let r := LSM6DSL_Init config env w in
  fst r = HAL_OK /\
  transactions w (snd r) 5 /\
  events_of (snd r) =
    events_of w ++
    [EvReadReg LSM6DSL_WHO_AM_I 1 HAL_OK;
     EvWriteReg LSM6DSL_CTRL3_C [0x01] HAL_OK;
     EvDelay 10;
     EvWriteReg LSM6DSL_CTRL1_XL
       [u8 (Z.lor (accel_odr config) (accel_fs config))] HAL_OK;
     EvWriteReg LSM6DSL_CTRL2_G
       [u8 (Z.lor (gyro_odr config) (gyro_fs config))] HAL_OK;
     EvWriteReg LSM6DSL_CTRL3_C [0x40] HAL_OK].
Proof.
  intros Hid Hok.
  destruct (Hok 0%nat ltac:(lia)) as [L0 S0].
  destruct (Hok 1%nat ltac:(lia)) as [L1 S1].
  destruct (Hok 2%nat ltac:(lia)) as [L2 S2].
  destruct (Hok 3%nat ltac:(lia)) as [L3 S3].
  destruct (Hok 4%nat ltac:(lia)) as [L4 S4].
  clear Hok. revert Hid L0 S0 L1 S1 L2 S2 L3 S3 L4 S4.
  unfold_init. unfold events_of. cbn [Nat.add].
  intros Hid L0 S0 L1 S1 L2 S2 L3 S3 L4 S4. apply Z.eqb_eq in Hid.
  use_replies. cbn.
  match goal with
  | |- context [LSM6DSL_UpdateSensitivity ?a ?g env ?w1] =>
      pose proof (UpdateSensitivity_rtos a g env w1) as Hr;
      destruct (LSM6DSL_UpdateSensitivity a g env w1) as [u w2]
  end.
  cbn [fst snd] in *. rewrite Hr. cbn. rewrite <- !app_assoc.
  repeat split.
Qed.

Lemma last_app_nonempty {A : Type} (x y : list A) (d : A) :
  y <> [] -> last (x ++ y) d = last y d.
Proof.
  intros Hy. induction x as [|a x IH]; [reflexivity |].
  cbn [app]. change (last (a :: x ++ y) d)
    with (match x ++ y with [] => a | _ :: _ => last (x ++ y) d end).
  destruct (x ++ y) eqn:E; [| exact IH].
  apply app_eq_nil in E. destruct E as [_ E]. contradiction.
Qed.

Lemma last_written_app reg w w' evs :
  events_of w' = events_of w ++ evs ->
  register_writes reg evs <> [] ->
  last_written reg w' = last (register_writes reg evs) [].
Proof.
  intros E Hne. unfold last_written, register_writes in *.
  rewrite E, flat_map_app. now apply last_app_nonempty.
Qed.

(** X5. When the identity register holds the device identity and all
    five register transactions go through, [LSM6DSL_Init] returns
    [HAL_OK] after exactly this sequence on the bus: read of [WHO_AM_I];
    write of the soft-reset bit [0x01] to [CTRL3_C]; a wait of 10 ticks;
    write of [accel_odr | accel_fs] to [CTRL1_XL]; write of
    [gyro_odr | gyro_fs] to [CTRL2_G]; write of the block-data-update bit
    [0x40] to [CTRL3_C], which is what [CTRL3_C] is left with. *)
Theorem init_register_sequence config env w :
  reply_byte (reply_at env w 0) 0 = LSM6DSL_WHO_AM_I_VALUE ->
  (forall i, (i < 5)%nat -> reply_ok (reply_at env w i)) ->
  let r := LSM6DSL_Init config env w in
  fst r = HAL_OK /\
  transactions w (snd r) 5 /\
  events_of (snd r) =
    events_of w ++
    [EvReadReg LSM6DSL_WHO_AM_I 1 HAL_OK;
     EvWriteReg LSM6DSL_CTRL3_C [0x01] HAL_OK;
     EvDelay 10;
     EvWriteReg LSM6DSL_CTRL1_XL
       [u8 (Z.lor (accel_odr config) (accel_fs config))] HAL_OK;
     EvWriteReg LSM6DSL_CTRL2_G
       [u8 (Z.lor (gyro_odr config) (gyro_fs config))] HAL_OK;
     EvWriteReg LSM6DSL_CTRL3_C [0x40] HAL_OK] /\
  last_written LSM6DSL_CTRL3_C (snd r) = [0x40] /\
  last_written LSM6DSL_CTRL1_XL (snd r) =
    [u8 (Z.lor (accel_odr config) (accel_fs config))] /\
  last_written LSM6DSL_CTRL2_G (snd r) =
    [u8 (Z.lor (gyro_odr config) (gyro_fs config))].
Proof.
  intros Hid Hok r.
  destruct (Init_ok_run config env w Hid Hok) as (Hs & Ht & He).
  fold r in Hs, Ht, He.
  repeat split; try assumption;
    rewrite (last_written_app _ _ _ _ He) by (cbn; discriminate); reflexivity.
Qed.

Lemma init_register_sequence_witness :
  events_of (snd (LSM6DSL_Init cfg_8g_2000dps env_ok World_reset)) =
  [EvReadReg LSM6DSL_WHO_AM_I 1 HAL_OK;
   EvWriteReg LSM6DSL_CTRL3_C [0x01] HAL_OK;
   EvDelay 10;
   EvWriteReg LSM6DSL_CTRL1_XL [0x4C] HAL_OK;
   EvWriteReg LSM6DSL_CTRL2_G [0x4C] HAL_OK;
   EvWriteReg LSM6DSL_CTRL3_C [0x40] HAL_OK].
Proof.
  assert (Hid : reply_byte (reply_at env_ok World_reset 0) 0
                = LSM6DSL_WHO_AM_I_VALUE) by reflexivity.
  assert (Hok : forall i, (i < 5)%nat -> reply_ok (reply_at env_ok World_reset i))
    by (intros i _; split; reflexivity).
  destruct (init_register_sequence cfg_8g_2000dps env_ok World_reset Hid Hok)
    as (_ & _ & He & _).
  rewrite He. reflexivity.
Defined.

(** X6. [LSM6DSL_Enable] writes one byte to [CTRL1_XL] and, only if that
    write went through, the same byte to [CTRL2_G]: [0x40] (104 Hz, 2 g
    and 250 dps) to switch on, [0x00] (power down) to switch off.  It
    returns the status of the first write if that failed and the status
    of the second write otherwise. *)
Theorem enable_writes_mode_registers on env w :
  let v := if on =? 0 then 0x00 else 0x40 in
  let s1 := reply_status (reply_at env w 0) in
  let s2 := reply_status (reply_at env w 1) in
  let r := LSM6DSL_Enable on env w in
  fst r = (if is_ok s1 then s2 else s1) /\
  events_of (snd r) =
    events_of w ++
    (if is_ok s1
     then [EvWriteReg LSM6DSL_CTRL1_XL [v] HAL_OK;
           EvWriteReg LSM6DSL_CTRL2_G [v] s2]
     else [EvWriteReg LSM6DSL_CTRL1_XL [v] s1]).
Proof.
  intros v s1 s2 r. subst r. unfold LSM6DSL_Enable.
  destruct (on =? 0); cbn [negb]; cbv zeta;
    rewrite bind_run, WriteReg_run; cbn [fst snd];
    change (reply_status (first_reply env w)) with s1;
    destruct (is_ok s1) eqn:E1; cbn [negb];
    try (split; reflexivity);
    rewrite WriteReg_run; cbn [fst snd];
    (assert (Hs1 : s1 = HAL_OK) by (destruct s1; try discriminate; reflexivity));
    rewrite Hs1; split; try reflexivity;
    unfold events_of; cbn; now rewrite <- app_assoc.
Qed.

(** The two writes of an [LSM6DSL_Enable] that goes through. *)
Lemma Enable_ok_run on env w :
  reply_ok (first_reply env w) -> reply_ok (second_reply env w) ->
  let v := if on =? 0 then 0x00 else 0x40 in
  events_of (snd (LSM6DSL_Enable on env w)) =
    events_of w ++ [EvWriteReg LSM6DSL_CTRL1_XL [v] HAL_OK;
                    EvWriteReg LSM6DSL_CTRL2_G [v] HAL_OK].
Proof.
  intros H1 H2. apply reply_ok_status in H1, H2. cbv zeta.
  unfold LSM6DSL_Enable.
  destruct (on =? 0); cbn [negb]; cbv zeta;
    rewrite bind_run, WriteReg_run; cbn [fst snd]; rewrite H1;
    cbn [is_ok negb]; rewrite WriteReg_run; cbn [fst snd];
    change (first_reply env (bus_step env w _)) with (second_reply env w);
    rewrite H2; unfold events_of; cbn; now rewrite <- app_assoc.
Qed.

(** X22. [LSM6DSL_Enable] does not know the configuration: switching on
    after a successful [LSM6DSL_Init] leaves [CTRL1_XL] and [CTRL2_G]
    written with [0x40], the full-scale bits of 2 g and 250 dps, in place
    of the bytes the initialisation wrote, while the cached sensitivities
    stay those of the configuration's full-scale codes.  For any other
    full scale than 2 g and 250 dps the cache then no longer matches the
    range the device was last set to. *)
Theorem enable_after_init_overrides_range config on env w :
  on <> 0 ->
  reply_byte (reply_at env w 0) 0 = LSM6DSL_WHO_AM_I_VALUE ->
  (forall i, (i < 7)%nat -> reply_ok (reply_at env w i)) ->
  let w1 := snd (LSM6DSL_Init config env w) in
  let w2 := snd (LSM6DSL_Enable on env w1) in
  last_written LSM6DSL_CTRL1_XL w1 =
    [u8 (Z.lor (accel_odr config) (accel_fs config))] /\
  last_written LSM6DSL_CTRL2_G w1 =
    [u8 (Z.lor (gyro_odr config) (gyro_fs config))] /\
  last_written LSM6DSL_CTRL1_XL w2 =
    [Z.lor LSM6DSL_XL_ODR_104_HZ LSM6DSL_XL_FS_2G] /\
  last_written LSM6DSL_CTRL2_G w2 =
    [Z.lor LSM6DSL_GY_ODR_104_HZ LSM6DSL_GY_FS_250_DPS] /\
  accel_table_holds (accel_fs config) (accel_sensitivity (drv w2)) /\
  gyro_table_holds (gyro_fs config) (gyro_sensitivity (drv w2)).
Proof.
  intros Hon Hid Hok w1 w2.
  destruct (Init_ok_run config env w Hid ltac:(intros i Hi; apply Hok; lia))
    as (Hs & Ht & He).
  fold w1 in Hs, Ht, He.
  assert (H5 : reply_ok (first_reply env w1)).
  { unfold first_reply. unfold transactions in Ht. rewrite Ht.
    apply (Hok 5%nat). lia. }
  assert (H6 : reply_ok (second_reply env w1)).
  { unfold second_reply. unfold transactions in Ht. rewrite Ht.
    apply (Hok 6%nat). lia. }
  pose proof (Enable_ok_run on env w1 H5 H6) as He2. fold w2 in He2.
  apply Z.eqb_neq in Hon. rewrite Hon in He2. cbv zeta in He2.
  destruct (Init_ok_table config env w I Hs) as (Ta & Tg & _).
  fold w1 in Ta, Tg.
  pose proof (Enable_drv on env w1) as D. fold w2 in D. unfold same_drv in D.
  rewrite D.
  split; [| split; [| split; [| split; [| split; assumption]]]].
  1, 2: rewrite (last_written_app _ _ _ _ He) by (cbn; discriminate);
    reflexivity.
  all: rewrite (last_written_app _ _ _ _ He2) by (cbn; discriminate);
    reflexivity.
Qed.

Lemma enable_after_init_overrides_range_witness :
  let w2 := snd (LSM6DSL_Enable 1 env_ok
                   (snd (LSM6DSL_Init cfg_8g_2000dps env_ok World_reset))) in
  last_written LSM6DSL_CTRL1_XL w2 = [0x40] /\
  accel_sensitivity (drv w2) = F32.lit 244 1000.
Proof.
  intros w2.
  destruct (enable_after_init_overrides_range cfg_8g_2000dps 1 env_ok
              World_reset ltac:(discriminate) eq_refl
              ltac:(intros i _; split; reflexivity))
    as (_ & _ & H1 & _ & (_ & _ & H8 & _) & _).
  fold w2 in H1, H8. split; [exact H1 | apply H8; reflexivity].
Defined.

(** ** Raw values and conversions *)

Lemma le_int16_encode v :
  -32768 <= v <= 32767 -> le_int16 (u8 v) (u8 (v / 256)) = v.
Proof.
  intros Hv. unfold le_int16, u8. cbv zeta.
  destruct (Z.ltb_spec (v mod 256 + 256 * ((v / 256) mod 256)) 32768);
    Z.div_mod_to_equations; lia.
Qed.

Lemma le_int16_decode lo hi :
  0 <= lo < 256 -> 0 <= hi < 256 ->
  -32768 <= le_int16 lo hi <= 32767 /\
  u8 (le_int16 lo hi) = lo /\ u8 (le_int16 lo hi / 256) = hi.
Proof.
  intros Hlo Hhi. unfold le_int16, u8. cbv zeta.
  destruct (Z.ltb_spec (lo + 256 * hi) 32768);
    Z.div_mod_to_equations; lia.
Qed.

(** X7. The axis decoding of [LSM6DSL_ReadData] and the two's-complement
    little-endian encoding are inverse to each other: every value of the
    signed 16-bit range is what the decoding reads from its low and high
    bytes, and every pair of bytes decodes to a value of that range whose
    low and high bytes they are. *)
Theorem axis_decoding_round_trip :
  (forall v, -32768 <= v <= 32767 ->
     raw_axis [u8 v; u8 (v / 256)] 0 1 = v) /\
  (forall lo hi, 0 <= lo < 256 -> 0 <= hi < 256 ->
     let v := raw_axis [lo; hi] 0 1 in
     -32768 <= v <= 32767 /\ u8 v = lo /\ u8 (v / 256) = hi).
Proof.
  split.
  - intros v Hv. unfold raw_axis. cbn [nth].
    rewrite int16_of_bytes by apply u8_range. apply le_int16_encode, Hv.
  - intros lo hi Hlo Hhi. unfold raw_axis. cbn [nth]. cbv zeta.
    rewrite int16_of_bytes by assumption. apply le_int16_decode; assumption.
Qed.

Lemma axis_decoding_round_trip_witness :
  raw_axis [0x18; 0xFC] 0 1 = -1000 /\
  u8 (-1000) = 0x18 /\ u8 (-1000 / 256) = 0xFC.
Proof.
  destruct axis_decoding_round_trip as [Henc Hdec].
  split.
  - exact (Henc (-1000) ltac:(lia)).
  - destruct (Hdec 0x18 0xFC ltac:(lia) ltac:(lia)) as (_ & Hl & Hh).
    change (raw_axis [0x18; 0xFC] 0 1) with (-1000) in Hl, Hh.
    split; assumption.
Defined.

(** * Further properties of the acquisition module *)

(** ** [SensorAcq_Init] *)

Lemma SensorAcq_Init_run env w :
  let r := LSM6DSL_Init default_config env (init_prepared w) in
  SensorAcq_Init env w =
  if is_ok (fst r)
  then (HAL_OK, with_acq (set_stats (set_state SENSOR_ACQ_INIT)) (snd r))
  else (fst r,
        with_acq (set_stats (set_state SENSOR_ACQ_ERROR))
          (with_rtos (emit (EvLog "LSM6DSL initialization failed")) (snd r))).
Proof.
  unfold SensorAcq_Init, set_xSensorStats_state, SensorAcq_LogError,
    log_event, modify, get, bind, ret. cbv beta iota zeta.
  change (LSM6DSL_Init _ env _)
    with (LSM6DSL_Init default_config env (init_prepared w)).
  destruct (LSM6DSL_Init default_config env (init_prepared w)) as [st w1].
  cbn [fst snd]. destruct (is_ok st); reflexivity.
Qed.

(** X8. [SensorAcq_Init] clears the statistics (sample count, error
    count, time of the last sample and rate are zero afterwards, whatever
    they were), installs the configuration 104 Hz, 2 g, 250 dps and
    leaves the enable flag and the queue alone.  When the driver
    initialises it returns [HAL_OK] with the state [SENSOR_ACQ_INIT] and
    the cached sensitivities 0.061 and 8.75; otherwise it returns the
    driver's status with the state [SENSOR_ACQ_ERROR] and the
    sensitivities untouched. *)
Theorem sensor_acq_init_outcome env w :
  let r := SensorAcq_Init env w in
  let s := stats_of (snd r) in
  (total_samples s = 0 /\ error_count s = 0 /\ last_sample_time s = 0 /\
   sample_rate s = F32.zero) /\
  xIMUConfig (acq (snd r)) = default_config /\
  ucSensorEnabled (acq (snd r)) = ucSensorEnabled (acq w) /\
  xSensorDataQueue (rtos (snd r)) = xSensorDataQueue (rtos w) /\
  (fst r = HAL_OK ->
   state s = SENSOR_ACQ_INIT /\
   accel_sensitivity (drv (snd r)) = F32.lit 61 1000 /\
   gyro_sensitivity (drv (snd r)) = F32.lit 875 100) /\
  (fst r <> HAL_OK ->
   state s = SENSOR_ACQ_ERROR /\
   fst r = fst (LSM6DSL_Init default_config env (init_prepared w)) /\
   drv (snd r) = drv w).
Proof.
  intros r s. subst s r. rewrite SensorAcq_Init_run. cbv zeta.
  destruct (LSM6DSL_Init_attempt default_config env (init_prepared w))
    as (_ & A & Q & _).
  pose proof (Init_ok_table default_config env (init_prepared w) I) as T.
  pose proof (Init_error_same_drv default_config (init_prepared w) env
                (init_prepared w) (frame_refl _)) as D.
  destruct (LSM6DSL_Init default_config env (init_prepared w)) as [st w1].
  cbn [fst snd] in *. unfold stats_of.
  destruct st; cbn [is_ok fst snd]; cbn; rewrite A, ?Q; cbn;
    (repeat split; try reflexivity; try discriminate; try congruence).
  - destruct (T eq_refl) as ((Ha & _) & _). exact (Ha eq_refl).
  - destruct (T eq_refl) as (_ & (_ & Hg & _) & _). exact (Hg eq_refl).
  - apply D. discriminate.
  - apply D. discriminate.
  - apply D. discriminate.
Qed.

Lemma sensor_acq_init_outcome_witness :
  state_of (snd (SensorAcq_Init env_ok world_with_stats)) = SENSOR_ACQ_INIT /\
  total_samples (stats_of (snd (SensorAcq_Init env_ok world_with_stats))) = 0 /\
  state_of (snd (SensorAcq_Init env_bus_busy world_with_stats))
    = SENSOR_ACQ_ERROR /\
  fst (SensorAcq_Init env_bus_busy world_with_stats) = HAL_ERROR.
Proof.
  destruct (sensor_acq_init_outcome env_ok world_with_stats)
    as ((Ht & _) & _ & _ & _ & Hok & _).
  destruct (sensor_acq_init_outcome env_bus_busy world_with_stats)
    as (_ & _ & _ & _ & _ & Herr).
  destruct (Hok eq_refl) as (S1 & _).
  destruct (Herr ltac:(vm_compute; discriminate)) as (S2 & R2 & _).
  split; [exact S1 | split; [exact Ht | split; [exact S2 |]]].
  rewrite R2. reflexivity.
Defined.

(** ** [SensorAcq_Enable] *)

(** X9. [SensorAcq_Enable] is a no-op when the requested state already
    holds: asked to start while enabled, or to stop while disabled, it
    returns [HAL_OK] and nothing moves; no register is written and
    the lifecycle state stays what it was (an Error state included). *)
Theorem enable_when_already_there enable env w :
  (enable <> 0 /\ ucSensorEnabled (acq w) <> 0) \/
  (enable = 0 /\ ucSensorEnabled (acq w) = 0) ->
  SensorAcq_Enable enable env w = (HAL_OK, w).
Proof.
  intros H. unfold SensorAcq_Enable, bind, get. cbv beta iota.
  destruct H as [[He Hw] | [He Hw]].
  - apply Z.eqb_neq in He, Hw. rewrite He, Hw. reflexivity.
  - apply Z.eqb_eq in He, Hw. rewrite He, Hw. reflexivity.
Qed.

Lemma enable_when_already_there_witness :
  SensorAcq_Enable 1 env_dead (snd (task_start env_dead))
    = (HAL_OK, snd (task_start env_dead)) /\
  SensorAcq_Enable 0 env_dead World_reset = (HAL_OK, World_reset).
Proof.
  split.
  - apply enable_when_already_there. left. split; discriminate.
  - apply enable_when_already_there. right. split; reflexivity.
Defined.

(** X10. Asked to start while disabled, [SensorAcq_Enable] returns the
    status of [LSM6DSL_Enable(1)]; only if that is [HAL_OK] does it set
    the enable flag and the state [SENSOR_ACQ_RUNNING], otherwise the
    module's variables stay as they were and the acquisition stays
    disabled. *)
Theorem enable_start enable env w :
  enable <> 0 -> ucSensorEnabled (acq w) = 0 ->
  let r := SensorAcq_Enable enable env w in
  fst r = fst (LSM6DSL_Enable 1 env w) /\
  drv (snd r) = drv w /\
  (fst r = HAL_OK ->
   ucSensorEnabled (acq (snd r)) = 1 /\ state_of (snd r) = SENSOR_ACQ_RUNNING) /\
  (fst r <> HAL_OK -> acq (snd r) = acq w).
Proof.
  intros He Hw r. subst r.
  unfold SensorAcq_Enable, set_xSensorStats_state, SensorAcq_LogError,
    log_event, modify, bind, get, ret. cbv beta iota.
  apply Z.eqb_neq in He. apply Z.eqb_eq in Hw. rewrite He, Hw. cbn [negb andb].
  destruct (Enable_quiet 1 env w) as (A & _).
  pose proof (Enable_drv 1 env w) as D.
  destruct (LSM6DSL_Enable 1 env w) as [st w1]. cbn [fst snd] in *.
  destruct st; cbn [is_ok fst snd]; repeat split; try congruence; auto.
Qed.

Lemma enable_start_witness :
  fst (SensorAcq_Enable 1 env_ok world_stopped) = HAL_OK /\
  state_of (snd (SensorAcq_Enable 1 env_ok world_stopped)) = SENSOR_ACQ_RUNNING /\
  fst (SensorAcq_Enable 1 env_dead world_stopped) = HAL_ERROR /\
  state_of (snd (SensorAcq_Enable 1 env_dead world_stopped)) = SENSOR_ACQ_STOPPED.
Proof.
  assert (He : 1 <> 0) by discriminate.
  assert (Hw : ucSensorEnabled (acq world_stopped) = 0) by reflexivity.
  destruct (enable_start 1 env_ok world_stopped He Hw) as (R1 & _ & Hok & _).
  destruct (enable_start 1 env_dead world_stopped He Hw) as (R2 & _ & _ & Herr).
  assert (E1 : fst (SensorAcq_Enable 1 env_ok world_stopped) = HAL_OK)
    by (rewrite R1; reflexivity).
  assert (E2 : fst (SensorAcq_Enable 1 env_dead world_stopped) = HAL_ERROR)
    by (rewrite R2; reflexivity).
  split; [exact E1 | split; [apply Hok, E1 | split; [exact E2 |]]].
  unfold state_of, stats_of. rewrite Herr by (rewrite E2; discriminate).
  reflexivity.
Defined.

(** X11. Asked to stop while enabled, [SensorAcq_Enable] clears the
    enable flag and sets the state [SENSOR_ACQ_STOPPED] whether or not
    the driver call went through, and returns the status of
    [LSM6DSL_Enable(0)]: a failed power-down is reported, but the
    acquisition is stopped all the same.  The counters of the statistics
    do not move. *)
Theorem enable_stop env w :
  ucSensorEnabled (acq w) <> 0 ->
  let r := SensorAcq_Enable 0 env w in
  fst r = fst (LSM6DSL_Enable 0 env w) /\
  ucSensorEnabled (acq (snd r)) = 0 /\
  state_of (snd r) = SENSOR_ACQ_STOPPED /\
  total_samples (stats_of (snd r)) = total_samples (stats_of w) /\
  error_count (stats_of (snd r)) = error_count (stats_of w) /\
  drv (snd r) = drv w.
Proof.
  intros Hw r. subst r.
  unfold SensorAcq_Enable, set_xSensorStats_state, SensorAcq_LogError,
    log_event, modify, bind, get, ret. cbv beta iota.
  apply Z.eqb_neq in Hw. rewrite Hw. cbn [Z.eqb negb andb].
  destruct (Enable_quiet 0 env w) as (A & _).
  pose proof (Enable_drv 0 env w) as D.
  destruct (LSM6DSL_Enable 0 env w) as [st w1]. cbn [fst snd] in *.
  unfold state_of, stats_of. cbn. rewrite A. repeat split. exact D.
Qed.

Lemma enable_stop_witness :
  fst (SensorAcq_Enable 0 env_dead (snd (task_start env_dead))) = HAL_ERROR /\
  state_of (snd (SensorAcq_Enable 0 env_dead (snd (task_start env_dead))))
    = SENSOR_ACQ_STOPPED.
Proof.
  assert (Hw : ucSensorEnabled (acq (snd (task_start env_dead))) <> 0)
    by discriminate.
  destruct (enable_stop env_dead (snd (task_start env_dead)) Hw)
    as (R & _ & S & _).
  split; [rewrite R; reflexivity | exact S].
Defined.

(** ** The cycle, further *)

(** The simulated readers never fail: the status of a cycle's reads is
    the status of [LSM6DSL_ReadData]; the sample carries the tick at which
    the cycle started and is not yet marked valid; its motion axes are the
    driver's when the driver had new data and zero otherwise. *)
Lemma cycle_reads_run env w :
  let cr := cycle_reads env w in
  let rd := LSM6DSL_ReadData LSM6DSL_Data_zero env w in
  let d := snd (fst rd) in
  let sd := snd (fst cr) in
  fst (fst (fst cr)) = tick (rtos w) /\
  snd (fst (fst cr)) = fst (fst rd) /\
  timestamp sd = tick (rtos w) /\
  data_valid sd = 0 /\
  (accel_x sd, accel_y sd, accel_z sd, gyro_x sd, gyro_y sd, gyro_z sd) =
    (if is_ok (fst (fst rd)) && negb (data_ready d =? 0)
     then (imu_accel_x d, imu_accel_y d, imu_accel_z d,
           imu_gyro_x d, imu_gyro_y d, imu_gyro_z d)
     else (F32.zero, F32.zero, F32.zero, F32.zero, F32.zero, F32.zero)) /\
  i2c_calls (rtos (snd cr)) = i2c_calls (rtos (snd rd)).
Proof.
  cbv zeta. unfold cycle_reads, SensorAcq_ReadIMU, xTaskGetTickCount, bind.
  cbv beta iota zeta.
  destruct (LSM6DSL_ReadData LSM6DSL_Data_zero env w) as [[st d] w1].
  cbn [fst snd].
  destruct st; cbn [is_ok andb];
    try (repeat split; reflexivity);
    destruct (data_ready d =? 0); cbn [negb andb ret fst snd is_ok];
    unfold SensorAcq_ReadPressure, SensorAcq_ReadHumidity, rand, bind, ret;
    cbv beta iota zeta; cbn [fst snd is_ok];
    match goal with
    | |- context [if F32.eqb ?a ?b then _ else _] => destruct (F32.eqb a b)
    end; repeat split; reflexivity.
Qed.

(** Reads that succeeded: the sample is marked valid and offered to the
    queue; it is counted whether the queue took it or not. *)
Lemma cycle_outcome_ok l t sd env w :
  let r := cycle_outcome l t HAL_OK sd env w in
  let room := (List.length (queue_left env w) <? xSensorDataQueue_length)%nat in
  retry_count (fst r) = 0 /\
  xSensorDataQueue (rtos (snd r)) =
    (if room then queue_left env w ++ [set_sample sd (timestamp sd) 1]
     else queue_left env w) /\
  send_calls (rtos (snd r)) = S (send_calls (rtos w)) /\
  error_count (stats_of (snd r)) =
    (if room then error_count (stats_of w)
     else u32 (error_count (stats_of w) + 1)) /\
  total_samples (stats_of (snd r)) = u32 (total_samples (stats_of w) + 1) /\
  last_sample_time (stats_of (snd r)) = t /\
  state_of (snd r) = state_of w /\
  drv (snd r) = drv w /\
  i2c_calls (rtos (snd r)) = i2c_calls (rtos w).
Proof.
  cbv zeta. unfold queue_left.
  unfold cycle_outcome, xQueueSend, SensorAcq_LogError, incr_error_count,
    SensorAcq_UpdateStats, log_event, modify, bind, ret.
  cbn [is_ok]. cbv beta iota zeta.
  destruct (_ <? _)%nat; cbn [negb]; unfold state_of, stats_of; cbn;
    repeat split; reflexivity.
Qed.

Lemma queue_full_room env w :
  queue_full env w <->
  (List.length (queue_left env w) <? xSensorDataQueue_length)%nat = false.
Proof. unfold queue_full, queue_left. symmetry. apply Nat.ltb_ge. Qed.

Lemma quiet_queue_left P env w w' :
  quiet P w w' -> queue_left env w' = queue_left env w.
Proof.
  intros (_ & Hq & Hs & _). unfold queue_left. now rewrite Hq, Hs.
Qed.

(** X12. A cycle of the disabled task does no work: no register
    transaction, no [rand], no [xQueueSend]; the module's variables, the
    cached sensitivities, the queue and the task's retry counter and
    sample stay as they were.  Only the wake-up time advances by the
    period of 10 ticks. *)
Theorem stopped_cycle_does_nothing l env w :
  ucSensorEnabled (acq w) = 0 ->
  let r := SensorAcqTask_cycle l env w in
  acq (snd r) = acq w /\ drv (snd r) = drv w /\
  xSensorDataQueue (rtos (snd r)) = xSensorDataQueue (rtos w) /\
  i2c_calls (rtos (snd r)) = i2c_calls (rtos w) /\
  rand_calls (rtos (snd r)) = rand_calls (rtos w) /\
  send_calls (rtos (snd r)) = send_calls (rtos w) /\
  retry_count (fst r) = retry_count l /\
  sensor_data (fst r) = sensor_data l /\
  xLastWakeTime (fst r) = u32 (xLastWakeTime l + 10) /\
  exists evs, events_of (snd r) = events_of w ++ evs /\ Forall is_delay evs.
Proof.
  intros Hoff r. subst r.
  unfold SensorAcqTask_cycle, bind, get. cbv beta iota.
  apply Z.eqb_eq in Hoff. rewrite Hoff. cbn [negb ret].
  destruct (vTaskDelayUntil_quiet (xLastWakeTime l) xFrequency env w)
    as (A & Q & S & _ & T).
  unfold vTaskDelayUntil, vTaskDelay, xTaskGetTickCount, log_event, modify,
    bind, ret in *. cbv beta iota zeta in *.
  match goal with
  | |- context [if ?b then _ else _] => destruct b
  end; cbn [fst snd] in *; repeat split; try assumption; reflexivity.
Qed.

Lemma stopped_cycle_does_nothing_witness :
  let r := SensorAcqTask_cycle locals_two_failures env_dead world_stopped in
  i2c_calls (rtos (snd r)) = i2c_calls (rtos world_stopped) /\
  retry_count (fst r) = 2 /\
  state_of (snd r) = SENSOR_ACQ_STOPPED.
Proof.
  intros r.
  destruct (stopped_cycle_does_nothing locals_two_failures env_dead
              world_stopped eq_refl) as (A & _ & _ & I & _ & _ & R & _).
  fold r in A, I, R.
  split; [exact I | split; [exact R |]].
  unfold state_of, stats_of. rewrite A. reflexivity.
Defined.

(** Reads that failed: nothing is offered to the queue; below the
    threshold only the error is counted, at the threshold the
    reinitialisation clears the statistics. *)
Lemma cycle_outcome_fault l t st sd env w :
  st <> HAL_OK ->
  let r := cycle_outcome l t st sd env w in
  xSensorDataQueue (rtos (snd r)) = xSensorDataQueue (rtos w) /\
  send_calls (rtos (snd r)) = send_calls (rtos w) /\
  (u8 (retry_count l + 1) < SENSOR_MAX_RETRY_COUNT ->
   total_samples (stats_of (snd r)) = total_samples (stats_of w) /\
   last_sample_time (stats_of (snd r)) = last_sample_time (stats_of w) /\
   drv (snd r) = drv w /\
   i2c_calls (rtos (snd r)) = i2c_calls (rtos w)) /\
  (SENSOR_MAX_RETRY_COUNT <= u8 (retry_count l + 1) ->
   total_samples (stats_of (snd r)) = 0 /\
   error_count (stats_of (snd r)) = 0 /\
   last_sample_time (stats_of (snd r)) = 0 /\
   sample_rate (stats_of (snd r)) = F32.zero /\
   xIMUConfig (acq (snd r)) = default_config).
Proof.
  intros Hst. cbv zeta. unfold cycle_outcome.
  rewrite (status_not_ok st Hst). cbv zeta. rewrite bind_run.
  destruct (Z.geb_spec (u8 (retry_count l + 1)) SENSOR_MAX_RETRY_COUNT)
    as [Hge | Hlt].
  - rewrite !bind_run. rewrite SensorAcq_Init_run. cbv zeta.
    match goal with
    | |- context [LSM6DSL_Init default_config env (init_prepared ?w0)] =>
        destruct (LSM6DSL_Init_attempt default_config env (init_prepared w0))
          as (_ & A & Q & S & _);
        destruct (LSM6DSL_Init default_config env (init_prepared w0))
          as [ist wi]
    end.
    cbn [fst snd] in *. unfold stats_of.
    destruct ist; cbn; rewrite ?A, ?Q, ?S; cbn;
      (repeat split; try reflexivity; intros; exfalso; lia).
  - repeat split; try reflexivity; exfalso; lia.
Qed.

(** A cycle keeps the retry counter below the threshold. *)
Lemma cycle_retry_bound l env w :
  0 <= retry_count l < SENSOR_MAX_RETRY_COUNT ->
  0 <= retry_count (fst (SensorAcqTask_cycle l env w)) < SENSOR_MAX_RETRY_COUNT.
Proof.
  intros Hl. unfold SENSOR_MAX_RETRY_COUNT in *.
  destruct (Z.eq_dec (ucSensorEnabled (acq w)) 0) as [Hoff | Hon].
  - unfold SensorAcqTask_cycle, bind, get. cbv beta iota.
    apply Z.eqb_eq in Hoff. rewrite Hoff. cbn [negb ret].
    destruct (vTaskDelayUntil _ _ env w). exact Hl.
  - destruct (cycle_reads env w) as [[[t st] sd] w1] eqn:Ecr.
    destruct (cycle_enabled l env w t st sd w1 Hon Ecr) as (Hr & _).
    rewrite Hr.
    assert (Hu : u8 (retry_count l + 1) = retry_count l + 1)
      by (unfold u8; apply Z.mod_small; lia).
    destruct st.
    + destruct (cycle_outcome_ok l t sd env w1) as (C & _). rewrite C. lia.
    + destruct (Z.lt_ge_cases (u8 (retry_count l + 1)) SENSOR_MAX_RETRY_COUNT)
        as [Hlt | Hge].
      * destruct (cycle_outcome_counts l t HAL_ERROR sd env w1
                    ltac:(discriminate) Hlt) as (C & _).
        rewrite C, Hu. unfold SENSOR_MAX_RETRY_COUNT in Hlt. lia.
      * destruct (cycle_outcome_reinit l t HAL_ERROR sd env w1
                    ltac:(discriminate) Hge) as (C & _).
        rewrite C. lia.
    + destruct (Z.lt_ge_cases (u8 (retry_count l + 1)) SENSOR_MAX_RETRY_COUNT)
        as [Hlt | Hge].
      * destruct (cycle_outcome_counts l t HAL_BUSY sd env w1
                    ltac:(discriminate) Hlt) as (C & _).
        rewrite C, Hu. unfold SENSOR_MAX_RETRY_COUNT in Hlt. lia.
      * destruct (cycle_outcome_reinit l t HAL_BUSY sd env w1
                    ltac:(discriminate) Hge) as (C & _).
        rewrite C. lia.
    + destruct (Z.lt_ge_cases (u8 (retry_count l + 1)) SENSOR_MAX_RETRY_COUNT)
        as [Hlt | Hge].
      * destruct (cycle_outcome_counts l t HAL_TIMEOUT sd env w1
                    ltac:(discriminate) Hlt) as (C & _).
        rewrite C, Hu. unfold SENSOR_MAX_RETRY_COUNT in Hlt. lia.
      * destruct (cycle_outcome_reinit l t HAL_TIMEOUT sd env w1
                    ltac:(discriminate) Hge) as (C & _).
        rewrite C. lia.
Qed.

Lemma loop_retry_bound n : forall l env w,
  0 <= retry_count l < SENSOR_MAX_RETRY_COUNT ->
  0 <= retry_count (fst (SensorAcqTask_loop n l env w)) < SENSOR_MAX_RETRY_COUNT.
Proof.
  induction n as [|n IH]; intros l env w Hl; cbn [SensorAcqTask_loop].
  - exact Hl.
  - rewrite bind_run. apply IH, cycle_retry_bound, Hl.
Qed.

(** X13. However many cycles the task has run, whatever the bus, the
    consumer and the world it started in, its consecutive-failure counter
    is 0, 1 or 2 between cycles: it never reaches the threshold of 3
    without being reset in the same cycle. *)
Theorem retry_counter_stays_below_threshold n env w :
  0 <= retry_count (fst (SensorAcqTask n env w)) < SENSOR_MAX_RETRY_COUNT.
Proof.
  unfold SensorAcqTask. rewrite bind_run.
  apply loop_retry_bound. cbn. unfold SENSOR_MAX_RETRY_COUNT. lia.
Qed.

Lemma data_waiting_spec s :
  (data_waiting s = true <->
   Z.land s (Z.lor LSM6DSL_STATUS_XLDA LSM6DSL_STATUS_GDA) <> 0) /\
  (data_waiting s = false <->
   Z.land s (Z.lor LSM6DSL_STATUS_XLDA LSM6DSL_STATUS_GDA) = 0).
Proof.
  unfold data_waiting.
  rewrite negb_true_iff, negb_false_iff, Z.eqb_neq, Z.eqb_eq. tauto.
Qed.

Lemma is_ok_true st : is_ok st = true -> st = HAL_OK.
Proof. destruct st; [reflexivity | discriminate ..]. Qed.

(** The status [LSM6DSL_ReadData] returns, from the answers of the bus. *)
Lemma ReadData_status data env w :
  fst (fst (LSM6DSL_ReadData data env w)) =
  if negb (is_ok (reply_status (first_reply env w)))
  then reply_status (first_reply env w)
  else if data_waiting (reply_byte (first_reply env w) 0)
       then reply_status (second_reply env w)
       else HAL_OK.
Proof.
  destruct (is_ok (reply_status (first_reply env w))) eqn:E1; cbn [negb].
  - assert (Hok : reply_ok (first_reply env w))
      by (apply reply_ok_status, is_ok_true, E1).
    destruct (data_waiting (reply_byte (first_reply env w) 0)) eqn:Ed.
    + apply data_waiting_spec in Ed.
      destruct (is_ok (reply_status (second_reply env w))) eqn:E2.
      * assert (Hok2 : reply_ok (second_reply env w))
          by (apply reply_ok_status, is_ok_true, E2).
        rewrite (ReadData_sample data env w Hok Ed Hok2). cbn [fst].
        symmetry. now apply reply_ok_status.
      * assert (Hbad : ~ reply_ok (second_reply env w))
          by (rewrite reply_ok_status; intros H; rewrite H in E2; discriminate).
        now rewrite (ReadData_burst_fault data env w Hok Ed Hbad).
    + apply data_waiting_spec in Ed.
      now rewrite (ReadData_idle data env w Hok Ed).
  - assert (Hbad : ~ reply_ok (first_reply env w))
      by (rewrite reply_ok_status; intros H; rewrite H in E1; discriminate).
    now rewrite (ReadData_status_fault data env w Hbad).
Qed.

(** X14. A cycle of the enabled task fails exactly when the sensor read
    fails: the read of the status register does not go through, or it
    announces accelerometer or gyroscope data and the burst read does not
    go through.  The pressure and humidity readers never fail, and a
    status register without new data is no failure. *)
Theorem cycle_failure_causes env w :
  cycle_fails env w <->
  ucSensorEnabled (acq w) <> 0 /\
  (~ reply_ok (first_reply env w) \/
   (reply_ok (first_reply env w) /\
    data_waiting (reply_byte (first_reply env w) 0) = true /\
    ~ reply_ok (second_reply env w))).
Proof.
  unfold cycle_fails.
  destruct (cycle_reads_run env w) as (_ & Hs & _). rewrite Hs.
  rewrite ReadData_status, !reply_ok_status.
  destruct (reply_status (first_reply env w)) eqn:E1; cbn [is_ok negb];
    destruct (data_waiting _) eqn:Ed;
    try destruct (reply_status (second_reply env w)) eqn:E2;
    split; intros [Hen H]; (split; [exact Hen |]);
    try congruence;
    try (left; discriminate);
    try (right; repeat split; congruence);
    try (destruct H as [H | (_ & H1 & H2)]; congruence).
Qed.

Lemma cycle_failure_causes_witness :
  cycle_fails env_burst_fails (snd (task_start env_burst_fails)) /\
  ~ cycle_fails (env_sample 0x04 []) (snd (task_start (env_sample 0x04 []))).
Proof.
  split.
  - apply cycle_failure_causes. split; [discriminate |].
    right. repeat split. intros [_ H]. discriminate H.
  - intros H. apply cycle_failure_causes in H.
    destruct H as (_ & [H | (_ & H & _)]).
    + apply H. split; reflexivity.
    + discriminate H.
Defined.

(** The world and the locals after a cycle whose reads returned [st]. *)
Lemma cycle_after_reads l env w t st sd w1 :
  ucSensorEnabled (acq w) <> 0 ->
  cycle_reads env w = (t, st, sd, w1) ->
  let co := cycle_outcome l t st sd env w1 in
  let r := SensorAcqTask_cycle l env w in
  retry_count (fst r) = retry_count (fst co) /\
  acq (snd r) = acq (snd co) /\
  xSensorDataQueue (rtos (snd r)) = xSensorDataQueue (rtos (snd co)) /\
  send_calls (rtos (snd r)) = send_calls (rtos (snd co)) /\
  acq w1 = acq w /\
  xSensorDataQueue (rtos w1) = xSensorDataQueue (rtos w) /\
  send_calls (rtos w1) = send_calls (rtos w) /\
  queue_left env w1 = queue_left env w /\
  t = tick (rtos w) /\ timestamp sd = tick (rtos w).
Proof.
  intros Hen Ecr co r.
  destruct (cycle_enabled l env w t st sd w1 Hen Ecr) as (Hr & Q1 & Q2).
  fold co r in Hr, Q2.
  pose proof (quiet_queue_left _ env _ _ Q1) as Hq.
  destruct Q1 as (A1 & Qu1 & S1 & _). destruct Q2 as (A2 & Qu2 & S2 & _).
  destruct (cycle_reads_run env w) as (Ht & _ & Hts & _).
  rewrite Ecr in Ht, Hts. cbn [fst snd] in Ht, Hts.
  repeat split; assumption.
Qed.

(** X15. A cycle whose reads succeed while the queue has room puts
    exactly one sample at the back of the queue, behind the samples the
    consumer has not yet taken and in their order; the sample is marked
    valid and carries the tick at which the cycle started.  The sample
    count goes up by one, the error count does not move, and the queue
    never holds more than its ten places. *)
Theorem successful_cycle_enqueues l env w :
  cycle_reads_ok env w ->
  ~ queue_full env w ->
  let r := SensorAcqTask_cycle l env w in
  (exists s,
     xSensorDataQueue (rtos (snd r)) = queue_left env w ++ [s] /\
     data_valid s = 1 /\ timestamp s = tick (rtos w)) /\
  (List.length (xSensorDataQueue (rtos (snd r))) <= xSensorDataQueue_length)%nat /\
  total_samples (stats_of (snd r)) = u32 (total_samples (stats_of w) + 1) /\
  last_sample_time (stats_of (snd r)) = tick (rtos w) /\
  error_count (stats_of (snd r)) = error_count (stats_of w).
Proof.
  intros [Hen Hst] Hroom r.
  destruct (cycle_reads env w) as [[[t st] sd] w1] eqn:Ecr.
  cbn [fst snd] in Hst. subst st.
  destruct (cycle_after_reads l env w t HAL_OK sd w1 Hen Ecr)
    as (_ & A & Q & _ & A1 & _ & _ & Hq & Ht & Hts).
  fold r in A, Q.
  destruct (cycle_outcome_ok l t sd env w1) as (_ & Qo & _ & E & T & L & _).
  rewrite Hq in Qo.
  assert (Hlt : (List.length (queue_left env w) <? xSensorDataQueue_length)%nat
                = true).
  { destruct (_ <? _)%nat eqn:El; [reflexivity |].
    exfalso. apply Hroom. apply queue_full_room. rewrite <- El. reflexivity. }
  fold (queue_left env w1) in E. rewrite Hq in E. rewrite Hlt in Qo, E.
  unfold stats_of in *. rewrite A, Q, Qo, T, L, E, A1.
  repeat split; try assumption.
  - eexists. split; [reflexivity |]. split; [reflexivity | exact Hts].
  - rewrite length_app. cbn. apply Nat.ltb_lt in Hlt. lia.
Qed.

Lemma successful_cycle_enqueues_witness :
  let w0 := snd (task_start (env_steady burst_example)) in
  let r := SensorAcqTask_cycle (fst (task_start (env_steady burst_example)))
             (env_steady burst_example) w0 in
  List.length (xSensorDataQueue (rtos (snd r))) = 1%nat /\
  total_samples (stats_of (snd r)) = 1 /\
  error_count (stats_of (snd r)) = 0.
Proof.
  intros w0 r.
  assert (Hok : cycle_reads_ok (env_steady burst_example) w0)
    by (split; [discriminate | vm_compute; reflexivity]).
  assert (Hroom : ~ queue_full (env_steady burst_example) w0)
    by (vm_compute; intros H; inversion H).
  destruct (successful_cycle_enqueues
              (fst (task_start (env_steady burst_example)))
              (env_steady burst_example) w0 Hok Hroom)
    as ((s & Hq & _) & _ & T & _ & E).
  fold r in Hq, T, E.
  split; [rewrite Hq; reflexivity | split; [rewrite T | rewrite E]; reflexivity].
Defined.

(** X16. Every cycle whose reads succeed counts one sample, records the
    tick at which the cycle started as the time of the last sample,
    resets the consecutive-failure counter and leaves the lifecycle state
    where it was: also when the state is [SENSOR_ACQ_ERROR] after a
    failed reinitialisation, and also when the queue was full and the
    sample was dropped, the queue then keeping only what the consumer had
    left in it. *)
Theorem ok_cycle_counts_and_keeps_state l env w :
  cycle_reads_ok env w ->
  let r := SensorAcqTask_cycle l env w in
  state_of (snd r) = state_of w /\
  retry_count (fst r) = 0 /\
  total_samples (stats_of (snd r)) = u32 (total_samples (stats_of w) + 1) /\
  last_sample_time (stats_of (snd r)) = tick (rtos w) /\
  (queue_full env w -> xSensorDataQueue (rtos (snd r)) = queue_left env w).
Proof.
  intros [Hen Hst] r.
  destruct (cycle_reads env w) as [[[t st] sd] w1] eqn:Ecr.
  cbn [fst snd] in Hst. subst st.
  destruct (cycle_after_reads l env w t HAL_OK sd w1 Hen Ecr)
    as (R & A & Q & _ & A1 & _ & _ & Hq & Ht & _).
  fold r in R, A, Q.
  destruct (cycle_outcome_ok l t sd env w1) as (C & Qo & _ & _ & T & L & S & _).
  rewrite Hq in Qo.
  unfold state_of, stats_of in *. rewrite R, A, Q, Qo, T, L, S, A1, C.
  repeat split; try assumption.
  intros Hfull. apply queue_full_room in Hfull. now rewrite Hfull.
Qed.

Lemma ok_cycle_counts_and_keeps_state_witness :
  let r := SensorAcqTask_cycle locals_two_failures env_stalled_consumer
             world_queue_full in
  total_samples (stats_of (snd r)) = 1 /\
  List.length (xSensorDataQueue (rtos (snd r))) = 10%nat.
Proof.
  intros r.
  assert (Hok : cycle_reads_ok env_stalled_consumer world_queue_full)
    by (split; [vm_compute; discriminate | vm_compute; reflexivity]).
  assert (Hfull : queue_full env_stalled_consumer world_queue_full)
    by (vm_compute; repeat constructor).
  destruct (ok_cycle_counts_and_keeps_state locals_two_failures
              env_stalled_consumer world_queue_full Hok)
    as (_ & _ & T & _ & Q).
  fold r in T, Q.
  split; [rewrite T | rewrite (Q Hfull)]; reflexivity.
Defined.

(** X17. A cycle whose reads fail offers nothing to the queue: the queue
    and the count of [xQueueSend] calls are after the cycle what they
    were before it, so no sample of a failed cycle ever reaches the
    consumer.  Below the retry threshold the sample count and the time
    of the last sample do not move either. *)
Theorem failed_cycle_forwards_nothing l env w :
  cycle_fails env w ->
  let r := SensorAcqTask_cycle l env w in
  xSensorDataQueue (rtos (snd r)) = xSensorDataQueue (rtos w) /\
  send_calls (rtos (snd r)) = send_calls (rtos w) /\
  (u8 (retry_count l + 1) < SENSOR_MAX_RETRY_COUNT ->
   total_samples (stats_of (snd r)) = total_samples (stats_of w) /\
   last_sample_time (stats_of (snd r)) = last_sample_time (stats_of w)).
Proof.
  intros [Hen Hst] r.
  destruct (cycle_reads env w) as [[[t st] sd] w1] eqn:Ecr.
  cbn [fst snd] in Hst.
  destruct (cycle_after_reads l env w t st sd w1 Hen Ecr)
    as (_ & A & Q & S & A1 & Q1 & S1 & _).
  fold r in A, Q, S.
  destruct (cycle_outcome_fault l t st sd env w1 Hst) as (Qo & So & Hlt & _).
  unfold stats_of in *. rewrite A, Q, S, Qo, So, Q1, S1.
  repeat split. 
  - destruct (Hlt H) as (T & _). now rewrite T, A1.
  - destruct (Hlt H) as (_ & L & _). now rewrite L, A1.
Qed.

Lemma failed_cycle_forwards_nothing_witness :
  let r := SensorAcqTask_cycle locals_two_failures env_dead world_running in
  xSensorDataQueue (rtos (snd r)) = [] /\
  send_calls (rtos (snd r)) = 0%nat.
Proof.
  intros r.
  assert (Hf : cycle_fails env_dead world_running)
    by (split; vm_compute; discriminate).
  destruct (failed_cycle_forwards_nothing locals_two_failures env_dead
              world_running Hf) as (Q & S & _).
  fold r in Q, S. split; [rewrite Q | rewrite S]; reflexivity.
Defined.

(** X18. The cycle in which the reads fail for the third time in a row
    clears the statistics: [SensorAcq_Init] is called after the error
    was counted, so at the end of that cycle the sample count, the error
    count, the time of the last sample and the rate are all zero,
    whatever they were and whether or not the reinitialisation
    succeeded; the configuration is the default one again. *)
Theorem third_failure_clears_statistics l env w :
  cycle_fails env w ->
  SENSOR_MAX_RETRY_COUNT <= u8 (retry_count l + 1) ->
  let s := stats_of (snd (SensorAcqTask_cycle l env w)) in
  total_samples s = 0 /\ error_count s = 0 /\ last_sample_time s = 0 /\
  sample_rate s = F32.zero /\
  xIMUConfig (acq (snd (SensorAcqTask_cycle l env w))) = default_config.
Proof.
  intros [Hen Hst] Hge s.
  destruct (cycle_reads env w) as [[[t st] sd] w1] eqn:Ecr.
  cbn [fst snd] in Hst.
  destruct (cycle_after_reads l env w t st sd w1 Hen Ecr) as (_ & A & _).
  destruct (cycle_outcome_fault l t st sd env w1 Hst) as (_ & _ & _ & Hz).
  subst s. unfold stats_of in *. rewrite A. exact (Hz Hge).
Qed.

Lemma third_failure_clears_statistics_witness :
  error_count (stats_of world_running) = 4 /\
  total_samples (stats_of world_running) = 250 /\
  error_count (stats_of (snd (SensorAcqTask_cycle locals_two_failures
                                env_dead world_running))) = 0 /\
  total_samples (stats_of (snd (SensorAcqTask_cycle locals_two_failures
                                  env_dead world_running))) = 0.
Proof.
  assert (Hf : cycle_fails env_dead world_running)
    by (split; vm_compute; discriminate).
  assert (Hge : SENSOR_MAX_RETRY_COUNT <= u8 (retry_count locals_two_failures + 1))
    by (vm_compute; discriminate).
  destruct (third_failure_clears_statistics locals_two_failures env_dead
              world_running Hf Hge) as (T & E & _).
  repeat split; assumption.
Defined.

(** X19. When the status register is read successfully and announces no
    accelerometer or gyroscope data, the cycle is no failure and still
    forwards a sample: with room in the queue, a sample marked valid is
    enqueued whose six motion axes are all [+0.0]. *)
Theorem idle_cycle_forwards_empty_sample l env w :
  ucSensorEnabled (acq w) <> 0 ->
  reply_ok (first_reply env w) ->
  data_waiting (reply_byte (first_reply env w) 0) = false ->
  ~ queue_full env w ->
  let r := SensorAcqTask_cycle l env w in
  ~ cycle_fails env w /\
  transactions w (snd r) 1 /\
  exists s,
    xSensorDataQueue (rtos (snd r)) = queue_left env w ++ [s] /\
    data_valid s = 1 /\
    (accel_x s, accel_y s, accel_z s, gyro_x s, gyro_y s, gyro_z s) =
    (F32.zero, F32.zero, F32.zero, F32.zero, F32.zero, F32.zero).
Proof.
  intros Hen Hok Hidle Hroom r.
  apply data_waiting_spec in Hidle.
  destruct (cycle_reads_run env w) as (_ & Hs & _ & _ & Hax & Hi).
  rewrite (ReadData_idle LSM6DSL_Data_zero env w Hok Hidle) in Hs, Hax, Hi.
  cbn [fst snd is_ok andb negb set_data_ready data_ready Z.eqb] in Hs, Hax, Hi.
  destruct (cycle_reads env w) as [[[t st] sd] w1] eqn:Ecr.
  cbn [fst snd] in Hs, Hax, Hi. subst st.
  pose proof (cycle_enabled l env w t HAL_OK sd w1 Hen Ecr) as (_ & _ & Q2).
  destruct (cycle_after_reads l env w t HAL_OK sd w1 Hen Ecr)
    as (_ & _ & Q & _ & _ & _ & _ & Hq & _).
  fold r in Q, Q2.
  destruct (cycle_outcome_ok l t sd env w1) as (_ & Qo & _ & _ & _ & _ & _ & _ & Io).
  rewrite Hq in Qo.
  assert (Hlt : (List.length (queue_left env w) <? xSensorDataQueue_length)%nat
                = true).
  { destruct (_ <? _)%nat eqn:El; [reflexivity |].
    exfalso. apply Hroom. apply queue_full_room. rewrite <- El. reflexivity. }
  rewrite Hlt in Qo.
  split; [| split].
  - intros [_ Hf]. rewrite Ecr in Hf. cbn in Hf. congruence.
  - unfold transactions.
    assert (Hd : i2c_calls (rtos (snd r)) =
                 i2c_calls (rtos (snd (cycle_outcome l t HAL_OK sd env w1)))).
    { unfold r, SensorAcqTask_cycle, bind, get. cbv beta iota.
      apply Z.eqb_neq in Hen. rewrite Hen. cbn [negb]. rewrite Ecr.
      destruct (cycle_outcome l t HAL_OK sd env w1) as [l' w2].
      unfold vTaskDelayUntil, vTaskDelay, xTaskGetTickCount, log_event,
        modify, bind, ret. cbv beta iota zeta.
      match goal with
      | |- context [if ?b then _ else _] => destruct b
      end; reflexivity. }
    rewrite Hd, Io, Hi. reflexivity.
  - exists (set_sample sd (timestamp sd) 1).
    rewrite Q, Qo. split; [reflexivity | split; [reflexivity | exact Hax]].
Qed.

Lemma idle_cycle_forwards_empty_sample_witness :
  let env := env_sample 0x04 [] in
  let r := SensorAcqTask_cycle (fst (task_start env)) env (snd (task_start env)) in
  List.length (xSensorDataQueue (rtos (snd r))) = 1%nat /\
  i2c_calls (rtos (snd r)) = 1%nat.
Proof.
  intros env r.
  assert (Hen : ucSensorEnabled (acq (snd (task_start env))) <> 0) by discriminate.
  assert (Hok : reply_ok (first_reply env (snd (task_start env))))
    by (split; reflexivity).
  assert (Hroom : ~ queue_full env (snd (task_start env)))
    by (vm_compute; intros H; inversion H).
  destruct (idle_cycle_forwards_empty_sample (fst (task_start env)) env
              (snd (task_start env)) Hen Hok eq_refl Hroom)
    as (_ & T & s & Q & _).
  fold r in T, Q. split; [rewrite Q | rewrite T]; reflexivity.
Defined.

(** ** The temperature the cycle keeps *)

Lemma finite_zero_iff x :
  F32.is_finite x = true ->
  (F32.eqb x F32.zero = true <-> (F32.to_Q x == 0)%Q).
Proof.
  destruct x as [s | s | | s m e]; cbn [F32.is_finite]; try discriminate;
    intros _.
  - split; [reflexivity |]. intros _. destruct s; reflexivity.
  - split.
    + destruct s; discriminate.
    + unfold F32.to_Q, Qeq. intros H. exfalso.
      destruct e as [| p | p]; destruct s; cbn [Qnum Qden Qopp] in H;
        try lia;
        pose proof (Z.pow_pos_nonneg 2 (Z.pos p) ltac:(lia) ltac:(lia));
        nia.
Qed.

Lemma temp_zero_iff lo hi :
  0 <= lo < 256 -> 0 <= hi < 256 ->
  F32.eqb (temp_celsius (le_int16 lo hi)) F32.zero =
  (le_int16 lo hi =? -6400).
Proof.
  intros Hlo Hhi.
  destruct (temp_celsius_exact lo hi Hlo Hhi) as [Hf Hq].
  assert (Hz : (25 + (le_int16 lo hi # 256) == 0)%Q <-> le_int16 lo hi = -6400).
  { unfold Qeq, Qplus. cbn [Qnum Qden]. lia. }
  destruct (Z.eqb_spec (le_int16 lo hi) (-6400)) as [E | N].
  - apply (finite_zero_iff _ Hf). rewrite Hq. now apply Hz.
  - destruct (F32.eqb _ _) eqn:Eb; [| reflexivity].
    exfalso. apply N, Hz. rewrite <- Hq. now apply (finite_zero_iff _ Hf).
Qed.

(** X20. When the driver delivers a sample, [SensorAcq_ReadIMU] copies
    the six motion axes, and copies the temperature unless the decoded
    temperature is zero, which happens for exactly one raw value, -6400
    (bytes [0x00, 0xE7]): a sensor reading of 0.0 degrees is taken for
    "no reading" and the temperature of the sample is left as it was. *)
Theorem imu_zero_temperature_is_dropped sd env w :
  reply_ok (first_reply env w) ->
  data_waiting (reply_byte (first_reply env w) 0) = true ->
  reply_ok (second_reply env w) ->
  let b := reply_byte (second_reply env w) in
  let raw := le_int16 (b 0%nat) (b 1%nat) in
  let r := fst (SensorAcq_ReadIMU sd env w) in
  fst r = HAL_OK /\
  temperature (snd r) =
    (if raw =? -6400 then temperature sd else temp_celsius raw) /\
  (accel_x (snd r), accel_y (snd r), accel_z (snd r)) =
    (accel_ms2 (accel_sensitivity (drv w)) (le_int16 (b 8%nat) (b 9%nat)),
     accel_ms2 (accel_sensitivity (drv w)) (le_int16 (b 10%nat) (b 11%nat)),
     accel_ms2 (accel_sensitivity (drv w)) (le_int16 (b 12%nat) (b 13%nat))) /\
  (gyro_x (snd r), gyro_y (snd r), gyro_z (snd r)) =
    (gyro_rads (gyro_sensitivity (drv w)) (le_int16 (b 2%nat) (b 3%nat)),
     gyro_rads (gyro_sensitivity (drv w)) (le_int16 (b 4%nat) (b 5%nat)),
     gyro_rads (gyro_sensitivity (drv w)) (le_int16 (b 6%nat) (b 7%nat))).
Proof.
  intros Hok Hset Hburst b raw r. apply data_waiting_spec in Hset.
  subst r. unfold SensorAcq_ReadIMU. cbv zeta. rewrite bind_run.
  rewrite (ReadData_sample LSM6DSL_Data_zero env w Hok Hset Hburst).
  cbn [fst snd is_ok andb negb data_ready Z.eqb imu_temperature imu_accel_x
       imu_accel_y imu_accel_z imu_gyro_x imu_gyro_y imu_gyro_z ret
       temperature accel_x accel_y accel_z gyro_x gyro_y gyro_z].
  fold b. fold raw. unfold raw.
  rewrite temp_zero_iff by apply u8_range.
  repeat split. fold raw. destruct (raw =? -6400); reflexivity.
Qed.

Lemma imu_zero_temperature_is_dropped_witness :
  let env := env_sample 0x03 [0x00; 0xE7] in
  temperature (snd (fst (SensorAcq_ReadIMU SensorData_zero env World_reset)))
    = F32.zero /\
  temperature (snd (fst (SensorAcq_ReadIMU SensorData_zero
                           (env_sample 0x03 burst_example) World_reset)))
    = F32.of_Z 26.
Proof.
  intros env. split.
  - refine (eq_trans (proj1 (proj2 (imu_zero_temperature_is_dropped
              SensorData_zero env World_reset _ _ _))) _);
      [split; reflexivity | reflexivity | split; reflexivity | reflexivity].
  - refine (eq_trans (proj1 (proj2 (imu_zero_temperature_is_dropped
              SensorData_zero (env_sample 0x03 burst_example) World_reset _ _ _))) _);
      [split; reflexivity | reflexivity | split; reflexivity | reflexivity].
Defined.

(** ** The measured rate *)

Lemma window_length t0 d :
  0 <= d < 4294967296 -> u32 (u32 (t0 + d) - t0) = d.
Proof.
  intros Hd. unfold u32. rewrite Zminus_mod_idemp_l.
  replace (t0 + d - t0) with d by lia. apply Z.mod_small, Hd.
Qed.

(** One call inside the window: the sample is counted, the rate stays. *)
Lemma UpdateStats_open t0 d env w :
  last_stats_update (acq w) = t0 ->
  0 <= d < 1000 ->
  0 <= sample_count_in_period (acq w) < 4294967295 ->
  let w' := snd (SensorAcq_UpdateStats (u32 (t0 + d)) env w) in
  last_stats_update (acq w') = t0 /\
  sample_count_in_period (acq w') = sample_count_in_period (acq w) + 1 /\
  sample_rate (stats_of w') = sample_rate (stats_of w).
Proof.
  intros Hl Hd Hc. unfold SensorAcq_UpdateStats, modify, stats_of. cbn.
  rewrite Hl, window_length by lia.
  replace (d >=? 1000) with false by (symmetry; rewrite Z.geb_leb; apply Z.leb_gt; lia).
  repeat split. unfold u32. apply Z.mod_small. lia.
Qed.

(** The call that closes the window: the rate is the count over the
    window, and a new window starts at this sample. *)
Lemma UpdateStats_close t0 d env w :
  last_stats_update (acq w) = t0 ->
  1000 <= d < 4294967296 ->
  0 <= sample_count_in_period (acq w) < 4294967295 ->
  let w' := snd (SensorAcq_UpdateStats (u32 (t0 + d)) env w) in
  last_stats_update (acq w') = u32 (t0 + d) /\
  sample_count_in_period (acq w') = 0 /\
  sample_rate (stats_of w') =
    F32.div (F32.mul (F32.of_Z (sample_count_in_period (acq w) + 1))
                     (F32.of_Z 1000))
            (F32.of_Z d).
Proof.
  intros Hl Hd Hc. unfold SensorAcq_UpdateStats, modify, stats_of. cbn.
  rewrite Hl, window_length by lia.
  replace (d >=? 1000) with true by (symmetry; rewrite Z.geb_leb; apply Z.leb_le; lia).
  replace (u32 (sample_count_in_period (acq w) + 1))
    with (sample_count_in_period (acq w) + 1)
    by (unfold u32; symmetry; apply Z.mod_small; lia).
  repeat split.
Qed.

Lemma update_every_open t0 n : forall i env w,
  last_stats_update (acq w) = t0 ->
  1 <= i -> i + Z.of_nat n <= 100 ->
  sample_count_in_period (acq w) = i - 1 ->
  let w' := snd (update_every 10 t0 i n env w) in
  last_stats_update (acq w') = t0 /\
  sample_count_in_period (acq w') = i - 1 + Z.of_nat n /\
  sample_rate (stats_of w') = sample_rate (stats_of w).
Proof.
  induction n as [|n IH]; intros i env w Hl Hi Hn Hc; cbn [update_every].
  - cbn. repeat split; lia.
  - rewrite bind_run.
    destruct (UpdateStats_open t0 (i * 10) env w Hl ltac:(lia) ltac:(lia))
      as (L1 & C1 & R1).
    destruct (IH (i + 1) env (snd (SensorAcq_UpdateStats (u32 (t0 + i * 10)) env w))
                L1 ltac:(lia) ltac:(lia) ltac:(lia)) as (L2 & C2 & R2).
    cbv zeta. rewrite L2, C2, R2, R1. repeat split; lia.
Qed.

Lemma update_every_last t0 n : forall i env w,
  snd (update_every 10 t0 i (S n) env w) =
  snd (SensorAcq_UpdateStats (u32 (t0 + (i + Z.of_nat n) * 10)) env
         (snd (update_every 10 t0 i n env w))).
Proof.
  induction n as [|n IH]; intros i env w.
  - cbn [update_every]. rewrite bind_run. cbn [Z.of_nat].
    now rewrite Z.add_0_r.
  - change (update_every 10 t0 i (S (S n)))
      with (SensorAcq_UpdateStats (u32 (t0 + i * 10)) ;;
            update_every 10 t0 (i + 1) (S n)).
    rewrite bind_run, IH.
    replace (i + 1 + Z.of_nat n) with (i + Z.of_nat (S n)) by lia.
    cbn [update_every]. now rewrite bind_run.
Qed.

(** X21. At the nominal cadence, one sample every 10 ticks from the
    start of a window, [SensorAcq_UpdateStats] leaves the rate untouched
    for the first 99 samples and, with the 100th, which closes the window
    of 1000 ticks, sets it to exactly 100.0 and starts a new window at
    that sample: the rate is [count * 1000 / window], it lags by one
    window, and the tick counter may wrap around in between. *)
Theorem nominal_rate_is_exact env w :
  0 <= last_stats_update (acq w) < 4294967296 ->
  sample_count_in_period (acq w) = 0 ->
  let t0 := last_stats_update (acq w) in
  let w99 := snd (update_every 10 t0 1 99 env w) in
  let w100 := snd (update_every 10 t0 1 100 env w) in
  sample_rate (stats_of w99) = sample_rate (stats_of w) /\
  sample_count_in_period (acq w99) = 99 /\
  sample_rate (stats_of w100) = F32.of_Z 100 /\
  last_stats_update (acq w100) = u32 (t0 + 1000) /\
  sample_count_in_period (acq w100) = 0.
Proof.
  intros Ht Hc t0 w99 w100.
  destruct (update_every_open t0 99 1 env w eq_refl ltac:(lia) ltac:(lia)
              ltac:(lia)) as (L & C & R).
  fold w99 in L, C, R.
  assert (Hsplit : w100 = snd (SensorAcq_UpdateStats (u32 (t0 + 1000)) env w99))
    by (subst w100 w99; apply (update_every_last t0 99 1 env w)).
  destruct (UpdateStats_close t0 1000 env w99 L ltac:(lia) ltac:(lia))
    as (L1 & C1 & R1).
  rewrite <- Hsplit in L1, C1, R1. rewrite C in R1.
  repeat split; assumption.
Qed.

Lemma nominal_rate_is_exact_witness :
  sample_rate (stats_of (snd (update_every 10 0 1 100 env_ok World_reset)))
    = F32.of_Z 100 /\
  sample_rate (stats_of (snd (update_every 10 0 1 99 env_ok World_reset)))
    = F32.zero.
Proof.
  destruct (nominal_rate_is_exact env_ok World_reset ltac:(cbn; lia) eq_refl)
    as (R99 & _ & R100 & _).
  split; [exact R100 | exact R99].
Defined.
